(** * PROFIBUS DP communication-processor PHY access library

    A shallow embedding of [cp-phy/python-module/cp_phy.py]: the message
    framing of [CpPhyMessage] (checksum, [getRawData], [setRawData]) and the
    transaction layer of [CpPhy] ([pollReply], [__sendMessage],
    [profibusSetPhyConfig]), followed by the properties of the framing and
    transaction protocol.

    Python integers are unbounded, so every integer of the source is a [Z]
    and the bit operators [&] and [^] are [Z.land] and [Z.lxor] (both are
    two's-complement on unbounded integers, as in Python).  A Python list of
    integers is a [list Z]; indexing is stdpp's list lookup, and an index
    out of range is the built-in [IndexError]. *)

From stdpp Require Import base numbers list gmap.

Local Open Scope Z_scope.

(** ** Exceptions and outcomes *)

(** The texts of the [PhyError] exceptions raised by the module. *)
Inductive PhyError : Type :=
  | MessageTooSmall            (* "CpPhyMessage: Message too small" *)
  | InvalidChecksum            (* "CpPhyMessage: Invalid checksum" *)
  | UnknownFrameControl (fc : Z) (* "CpPhyMessage: Unknown frame control %02X" *)
  | InvalidPayloadLength       (* "CpPhyMessage: Invalid payload length" *)
  | InvalidBaudRate.           (* "Invalid baud-rate" *)

(** An exception is either Python's built-in [IndexError] (a list indexed
    out of range) or a [PhyError] of the module. *)
Inductive exn : Type :=
  | IndexError
  | PhyErr (e : PhyError).

(** How a call ends.  [Spinning] is not a result of the program: it says
    that the busy-wait loop of [__sendMessage] was still polling when the
    iteration budget given to the model ran out. *)
Inductive outcome (A : Type) : Type :=
  | Return (a : A)
  | Raise (e : exn)
  | Spinning.

Arguments Return {A} a.
Arguments Raise {A} e.
Arguments Spinning {A}.

(** A method that mutates an object of type [S]: it takes the object's
    state and gives back how the call ended together with the state the
    object is left in (also when the call raised). *)
Definition M (S A : Type) : Type := S -> outcome A * S.

Definition ret {S A} (a : A) : M S A := fun s => (Return a, s).

Definition raise {S A} (e : exn) : M S A := fun s => (Raise e, s).

Definition bind {S A B} (c : M S A) (k : A -> M S B) : M S B :=
  fun s =>
    match c s with
    | (Return a, s') => k a s'
    | (Raise e, s') => (Raise e, s')
    | (Spinning, s') => (Spinning, s')
    end.

Definition get {S} : M S S := fun s => (Return s, s).

Definition put {S} (s : S) : M S unit := fun _ => (Return tt, s).

(** A pure computation that may raise, run inside a method. *)
Definition lift {S A} (r : outcome A) : M S A := fun s => (r, s).

#[global] Instance M_ret {S} : MRet (M S) := fun A => @ret S A.
#[global] Instance M_bind {S} : MBind (M S) := fun A B k c => bind c k.

(** [l[i]] for a non-negative literal index [i]. *)
Definition index {A} (l : list A) (i : nat) : outcome A :=
  match l !! i with
  | Some x => Return x
  | None => Raise IndexError
  end.

(** Python's built-in [sum]: a left fold of [+] that starts at 0. *)
Definition sum (l : list Z) : Z := fold_left Z.add l 0.

(** ** class CpPhyMessage *)

Module CpPhyMessage.

Definition RASPI_PACK_HDR_LEN : nat := 3.

(** Message frame control *)
Definition RPI_PACK_NOP : Z := 0.          (* No operation *)
Definition RPI_PACK_RESET : Z := 1.        (* Reset *)
Definition RPI_PACK_SETCFG : Z := 2.       (* Set config *)
Definition RPI_PACK_PB_SDR : Z := 3.       (* Profibus SDR request *)
Definition RPI_PACK_PB_SDR_REPLY : Z := 4. (* Profibus SDR reply *)
Definition RPI_PACK_PB_SDN : Z := 5.       (* Profibus SDN request *)
Definition RPI_PACK_ACK : Z := 6.          (* Short ACK *)
Definition RPI_PACK_NACK : Z := 7.         (* Short NACK *)
Definition RPI_PACK_FC_MAX : Z := RPI_PACK_NACK.

(** The two attributes set by [__init__]. *)
Record t : Type := mk { fc : Z; payload : list Z }.

(** [CpPhyMessage(fc)] with the default [payload=()]. *)
Definition init (fc : Z) : t := mk fc [].

Definition set_fc (v : Z) : M t unit :=
  fun self => (Return tt, mk v (payload self)).

Definition set_payload (p : list Z) : M t unit :=
  fun self => (Return tt, mk (fc self) p).

(** [((sum(packetData) - (packetData[2] & 0xFF)) ^ 0xFF) & 0xFF] *)
Definition calculateChecksum (packetData : list Z) : outcome Z :=
  match index packetData 2 with
  | Return b2 =>
      Return (Z.land (Z.lxor (sum packetData - Z.land b2 255) 255) 255)
  | Raise e => Raise e
  | Spinning => Spinning
  end.

(** [getRawData] reads the message and builds a new list. *)
Definition getRawData (self : t) : outcome (list Z) :=
  let data := [fc self; Z.of_nat (length (payload self)); 0] ++ payload self in
  match calculateChecksum data with
  | Return c => Return (<[2%nat := c]> data)
  | Raise e => Raise e
  | Spinning => Spinning
  end.

(** [setRawData] assigns [self.fc] and [self.payload] as it goes; the
    assignments made before a [raise] stay in the object. *)
Definition setRawData (data : list Z) : M t unit :=
  b0 ← lift (index data 0);
  set_fc b0;;
  self ← get;
  if fc self =? RPI_PACK_NOP then ret tt
  else if (length data <? RASPI_PACK_HDR_LEN)%nat
  then raise (PhyErr MessageTooSmall)
  else
    c ← lift (calculateChecksum data);
    b2 ← lift (index data 2);
    if negb (c =? b2) then raise (PhyErr InvalidChecksum)
    else
      set_payload (drop 3 data);;
      self ← get;
      if (fc self <? 0) || (fc self >? RPI_PACK_FC_MAX)
      then raise (PhyErr (UnknownFrameControl (fc self)))
      else
        b1 ← lift (index data 1);
        if negb (Z.of_nat (length (payload self)) =? b1)
        then raise (PhyErr InvalidPayloadLength)
        else ret tt.

End CpPhyMessage.

Import CpPhyMessage.

(** ** class CpPhy *)

Module CpPhy.

(** Profibus baud-rates *)
Definition PB_PHY_BAUD_9600 : Z := 0.
Definition PB_PHY_BAUD_19200 : Z := 1.
Definition PB_PHY_BAUD_45450 : Z := 2.
Definition PB_PHY_BAUD_93750 : Z := 3.
Definition PB_PHY_BAUD_187500 : Z := 4.
Definition PB_PHY_BAUD_500000 : Z := 5.
Definition PB_PHY_BAUD_1500000 : Z := 6.
Definition PB_PHY_BAUD_3000000 : Z := 7.
Definition PB_PHY_BAUD_6000000 : Z := 8.
Definition PB_PHY_BAUD_12000000 : Z := 9.

Definition baud2id : gmap Z Z :=
  list_to_map
    [ (9600, PB_PHY_BAUD_9600);
      (19200, PB_PHY_BAUD_19200);
      (45450, PB_PHY_BAUD_45450);
      (93750, PB_PHY_BAUD_93750);
      (187500, PB_PHY_BAUD_187500);
      (500000, PB_PHY_BAUD_500000);
      (1500000, PB_PHY_BAUD_1500000);
      (3000000, PB_PHY_BAUD_3000000);
      (6000000, PB_PHY_BAUD_6000000);
      (12000000, PB_PHY_BAUD_12000000) ].

(** What an opened [CpPhy] has done on its link so far:
    - [irq_polls]: how many times [GPIO.event_detected(GPIO_IRQ)] was called;
    - [rx_count]: how many bytes [spi.readbytes] has clocked in;
    - [tx_log]: the arguments of the [spi.writebytes] calls, oldest first. *)
Record t : Type := mk {
  irq_polls : nat;
  rx_count : nat;
  tx_log : list (list Z)
}.

Section Link.

(** The companion processor, seen from the host: [irq k] is what the
    [k]-th call of [GPIO.event_detected(GPIO_IRQ)] answers (calls are
    counted from 0), and [miso k] is the [k]-th byte that the SPI
    device clocks in. *)
Variable irq : nat -> bool.
Variable miso : nat -> Z.

Definition GPIO_event_detected : M t bool :=
  fun self =>
    (Return (irq (irq_polls self)),
     mk (S (irq_polls self)) (rx_count self) (tx_log self)).

(** [spi.readbytes(len)] returns exactly [len] values. *)
Definition spi_readbytes (len : Z) : M t (list Z) :=
  fun self =>
    (Return (miso <$> seq (rx_count self) (Z.to_nat len)),
     mk (irq_polls self) (rx_count self + Z.to_nat len) (tx_log self)).

Definition spi_writebytes (data : list Z) : M t unit :=
  fun self =>
    (Return tt,
     mk (irq_polls self) (rx_count self) (tx_log self ++ [data])).

Definition pollReply : M t (option CpPhyMessage.t) :=
  ev ← GPIO_event_detected;
  if negb ev then ret None
  else
    reply ← spi_readbytes (Z.of_nat RASPI_PACK_HDR_LEN);
    b1 ← lift (index reply 1);
    let payloadLen := Z.land b1 255 in
    reply ← (if negb (payloadLen =? 0)
             then ext ← spi_readbytes payloadLen; ret (reply ++ ext)
             else ret reply);
    let message := CpPhyMessage.init 0 in
    match setRawData reply message with
    | (Return _, message) => ret (Some message)
    | (Raise e, _) => raise e
    | (Spinning, _) => lift Spinning
    end.

(** The [while 1] loop of [__sendMessage]; every iteration takes one
    unit of [fuel], and a loop that is left without fuel is [Spinning].
    A [CpPhyMessage] object is true in a condition, [None] is false. *)
Fixpoint spin (fuel : nat) : M t (option CpPhyMessage.t) :=
  match fuel with
  | O => lift Spinning
  | S fuel' =>
      reply ← pollReply;
      match reply with
      | Some m => ret (Some m)
      | None => spin fuel'
      end
  end.

Definition __sendMessage (fuel : nat) (message : CpPhyMessage.t)
    (sync : bool) : M t (option CpPhyMessage.t) :=
  data ← lift (getRawData message);
  spi_writebytes data;;
  if negb sync then ret None
  else spin fuel.

Definition sendReset (fuel : nat) : M t (option CpPhyMessage.t) :=
  __sendMessage fuel (CpPhyMessage.init RPI_PACK_RESET) true.

Definition profibusSetPhyConfig (fuel : nat) (baudrate : Z) : M t unit :=
  baudID ← match baud2id !! baudrate with
           | Some baudID => ret baudID
           | None => raise (PhyErr InvalidBaudRate)
           end;
  let payload := [baudID] in
  let message := CpPhyMessage.mk RPI_PACK_SETCFG payload in
  reply ← __sendMessage fuel message true;
  ret tt.

Definition profibusSend_SDN (fuel : nat) (telegram : list Z) (sync : bool)
    : M t (option CpPhyMessage.t) :=
  __sendMessage fuel (CpPhyMessage.mk RPI_PACK_PB_SDN telegram) sync.

Definition profibusSend_SDR (fuel : nat) (telegram : list Z) (sync : bool)
    : M t (option CpPhyMessage.t) :=
  __sendMessage fuel (CpPhyMessage.mk RPI_PACK_PB_SDR telegram) sync.

End Link.

End CpPhy.

(** ** [CpPhy.__init__] and [CpPhy.cleanup] *)

(** The constructor and [cleanup] drive the GPIO lines and the SPI device.
    Here the object carries the list of the hardware calls it has made, in
    order, next to the attributes the two methods assign; the traffic of a
    transaction is the [CpPhy.t] above.  Every hardware call made by the
    two methods may raise: [faults k] tells what the [k]-th of these calls
    (counted from 0) raises, if anything.  The calls made inside
    [sendReset] are those of [__sendMessage] above. *)
Module Board.

(** GPIO numbers (BCM) *)
Definition GPIO_RESET : Z := 17.
Definition GPIO_IRQ : Z := 27.

Definition LOW : bool := false.
Definition HIGH : bool := true.

Inductive hw_call : Type :=
  | GPIO_setmode_BCM                         (* GPIO.setmode(GPIO.BCM) *)
  | GPIO_setwarnings (flag : bool)           (* GPIO.setwarnings(flag) *)
  | GPIO_setup_OUT (pin : Z) (initial : bool) (* GPIO.setup(pin, GPIO.OUT, initial=..) *)
  | GPIO_setup_IN (pin : Z)                  (* GPIO.setup(pin, GPIO.IN, pull_up_down=GPIO.PUD_OFF) *)
  | GPIO_add_event_detect_RISING (pin : Z)   (* GPIO.add_event_detect(pin, GPIO.RISING) *)
  | GPIO_output (pin : Z) (value : bool)     (* GPIO.output(pin, value) *)
  | GPIO_cleanup                             (* GPIO.cleanup() *)
  | time_sleep (milliseconds : Z)            (* time.sleep(seconds) *)
  | SpiDev                                   (* SpiDev() *)
  | spi_open (device chipselect : Z)         (* spi.open(device, chipselect) *)
  | spi_set_mode (v : Z)                     (* spi.mode = v *)
  | spi_set_bits_per_word (v : Z)            (* spi.bits_per_word = v *)
  | spi_set_cshigh (v : bool)                (* spi.cshigh = v *)
  | spi_set_lsbfirst (v : bool)              (* spi.lsbfirst = v *)
  | spi_set_max_speed_hz (v : Z)             (* spi.max_speed_hz = v *)
  | spi_close.                               (* spi.close() *)

(** What a hardware call raised: an [IOError], or anything else. *)
Inductive hw_exn : Type :=
  | IOError
  | OtherError.

Inductive board_exn : Type :=
  | Hw (x : hw_exn)                     (* raised by a hardware call *)
  | OpenFailed (device chipselect : Z)  (* PhyError("Failed to open SPI device %d.%d: %s") *)
  | ConfigFailed (device chipselect : Z) (* PhyError("Failed to configure SPI device %d.%d: %s") *)
  | AttributeError                      (* [self.spi] is [None] or not set *)
  | Link (e : exn).                     (* raised inside [sendReset] *)

(** How a call ends; [Waiting] stands for [Spinning], see there. *)
Inductive result (A : Type) : Type :=
  | Done (a : A)
  | Failed (e : board_exn)
  | Waiting.

Arguments Done {A} a.
Arguments Failed {A} e.
Arguments Waiting {A}.

(** The attribute [self.spi]. *)
Inductive spi_attr : Type :=
  | NoAttr      (* not assigned yet *)
  | SpiObj      (* a [SpiDev] object *)
  | SpiNone.    (* [None] *)

Record t : Type := mk {
  device : Z;
  chipselect : Z;
  spi : spi_attr;
  calls : list hw_call;
  link : CpPhy.t
}.

(** The object as [__init__] receives it. *)
Definition blank : t := mk 0 0 NoAttr [] (CpPhy.mk 0 0 []).

Definition B (A : Type) : Type := t -> result A * t.

Definition retB {A} (a : A) : B A := fun self => (Done a, self).

Definition raiseB {A} (e : board_exn) : B A := fun self => (Failed e, self).

Definition bindB {A C} (c : B A) (k : A -> B C) : B C :=
  fun self =>
    match c self with
    | (Done a, self') => k a self'
    | (Failed e, self') => (Failed e, self')
    | (Waiting, self') => (Waiting, self')
    end.

#[global] Instance B_ret : MRet B := fun A => @retB A.
#[global] Instance B_bind : MBind B := fun A C k c => bindB c k.

(** [try: body except ...: handler]: [handler e] is [None] when no
    [except] clause matches [e]. *)
Definition try_except {A} (body : B A) (handler : board_exn -> option (B A))
    : B A :=
  fun self =>
    match body self with
    | (Failed e, self') =>
        match handler e with
        | Some h => h self'
        | None => (Failed e, self')
        end
    | r => r
    end.

Definition set_device (v : Z) : B unit :=
  fun self =>
    (Done tt, mk v (chipselect self) (spi self) (calls self) (link self)).

Definition set_chipselect (v : Z) : B unit :=
  fun self =>
    (Done tt, mk (device self) v (spi self) (calls self) (link self)).

Definition set_spi (v : spi_attr) : B unit :=
  fun self =>
    (Done tt, mk (device self) (chipselect self) v (calls self) (link self)).

Section Hardware.

Variable faults : nat -> option hw_exn.
Variable irq : nat -> bool.
Variable miso : nat -> Z.

(** One hardware call: it is made, and then it returns or raises. *)
Definition call (c : hw_call) : B unit :=
  fun self =>
    let self' :=
      mk (device self) (chipselect self) (spi self) (calls self ++ [c])
        (link self) in
    match faults (length (calls self)) with
    | None => (Done tt, self')
    | Some x => (Failed (Hw x), self')
    end.

(** A method of the transaction layer, run on the link of the object. *)
Definition on_link {A} (c : M CpPhy.t A) : B A :=
  fun self =>
    let (r, l) := c (link self) in
    let self' :=
      mk (device self) (chipselect self) (spi self) (calls self) l in
    match r with
    | Return a => (Done a, self')
    | Raise e => (Failed (Link e), self')
    | Spinning => (Waiting, self')
    end.

(** [self.spi.close()] *)
Definition self_spi_close : B unit :=
  fun self =>
    match spi self with
    | SpiObj => call spi_close self
    | _ => (Failed AttributeError, self)
    end.

Definition __init__ (fuel : nat) (device chipselect : Z) : B unit :=
  set_device device;;
  set_chipselect chipselect;;
  try_except
    ((* Initialize GPIOs *)
     call GPIO_setmode_BCM;;
     call (GPIO_setwarnings false);;
     call (GPIO_setup_OUT GPIO_RESET LOW);;
     call (GPIO_setup_IN GPIO_IRQ);;
     call (GPIO_add_event_detect_RISING GPIO_IRQ);;
     call (time_sleep 50);;
     (* Initialize SPI *)
     try_except
       (call SpiDev;;
        set_spi SpiObj;;
        call (spi_open device chipselect))
       (fun e =>
          match e with
          | Hw IOError => Some (raiseB (OpenFailed device chipselect))
          | _ => None
          end);;
     try_except
       (call (spi_set_mode 0);;
        call (spi_set_bits_per_word 8);;
        call (spi_set_cshigh false);;
        call (spi_set_lsbfirst false);;
        call (spi_set_max_speed_hz 200000))
       (fun e =>
          match e with
          | Hw IOError =>
              Some (try_except
                      (self_spi_close;;
                       set_spi SpiNone)
                      (fun _ => Some (retB tt));;
                    raiseB (ConfigFailed device chipselect))
          | _ => None
          end);;
     (* Get the controller out of hardware reset *)
     call (GPIO_output GPIO_RESET HIGH);;
     call (time_sleep 200);;
     (* Send a software reset *)
     on_link (CpPhy.sendReset irq miso fuel);;
     retB tt)
    (fun e => Some (call GPIO_cleanup;; raiseB e)).

Definition cleanup : B unit :=
  self_spi_close;;
  set_spi SpiNone;;
  call GPIO_cleanup.

End Hardware.

(** [CpPhy(device, chipselect)] *)
Definition new (faults : nat -> option hw_exn) (irq : nat -> bool)
    (miso : nat -> Z) (fuel : nat) (device chipselect : Z) : result unit * t :=
  __init__ faults irq miso fuel device chipselect blank.

(** The hardware calls of a constructor that succeeds. *)
Definition bring_up (device chipselect : Z) : list hw_call :=
  [ GPIO_setmode_BCM; GPIO_setwarnings false;
    GPIO_setup_OUT GPIO_RESET LOW; GPIO_setup_IN GPIO_IRQ;
    GPIO_add_event_detect_RISING GPIO_IRQ; time_sleep 50;
    SpiDev; spi_open device chipselect;
    spi_set_mode 0; spi_set_bits_per_word 8; spi_set_cshigh false;
    spi_set_lsbfirst false; spi_set_max_speed_hz 200000;
    GPIO_output GPIO_RESET HIGH; time_sleep 200 ].

End Board.

(** ** Vocabulary of the properties *)

(** The one's complement, on eight bits, of the sum of the frame control,
    the payload length and the payload: the value that byte 2 of an encoded
    buffer is shown to hold ([getRawData_eq]). *)
Definition checksum_of (m : CpPhyMessage.t) : Z :=
  255 - (fc m + Z.of_nat (length (payload m)) + sum (payload m)) mod 256.

(** A single-bit corruption, [data[i] ^= 1 << k]: bit [k] of element [i]
    flipped, the other elements untouched. *)
Definition flip_bit (data : list Z) (i : nat) (k : Z) : list Z :=
  alter (fun b => Z.lxor b (Z.shiftl 1 k)) i data.

(** The buffer that [pollReply] is shown to assemble when the event was
    detected and the link has clocked in [rx_count self] bytes so far
    ([pollReply_event]): the three header bytes, followed by as many bytes
    as the low eight bits of header byte 1 say. *)
Definition assembled (miso : nat -> Z) (self : CpPhy.t) : list Z :=
  miso <$> seq (CpPhy.rx_count self)
    (3 + Z.to_nat (Z.land (miso (S (CpPhy.rx_count self))) 255)).

(** The link after such a poll. *)
Definition after_poll (miso : nat -> Z) (self : CpPhy.t) : CpPhy.t :=
  CpPhy.mk (S (CpPhy.irq_polls self))
    (CpPhy.rx_count self + 3
     + Z.to_nat (Z.land (miso (S (CpPhy.rx_count self))) 255))
    (CpPhy.tx_log self).

(** The link after [n] polls that saw no event. *)
Definition after_idle_polls (n : nat) (self : CpPhy.t) : CpPhy.t :=
  CpPhy.mk (CpPhy.irq_polls self + n) (CpPhy.rx_count self)
    (CpPhy.tx_log self).

(** The link after [spi.writebytes(data)]. *)
Definition after_write (data : list Z) (self : CpPhy.t) : CpPhy.t :=
  CpPhy.mk (CpPhy.irq_polls self) (CpPhy.rx_count self)
    (CpPhy.tx_log self ++ [data]).

(** * Properties *)

(** ** Sample runs *)

Example getRawData_reset :
  getRawData (init RPI_PACK_RESET) = Return [1; 0; 254].
Proof. reflexivity. Qed.

Example getRawData_sdn :
  getRawData (mk RPI_PACK_PB_SDN [16; 2; 3]) = Return [5; 3; 226; 16; 2; 3].
Proof. reflexivity. Qed.

Example setRawData_sdn :
  setRawData [5; 3; 226; 16; 2; 3] (init 0) = (Return tt, mk 5 [16; 2; 3]).
Proof. reflexivity. Qed.

(** ** Arithmetic of the checksum *)

Section Arithmetic.

Lemma fold_left_add_from (l : list Z) (a : Z) :
  fold_left Z.add l a = a + fold_left Z.add l 0.
Proof.
  revert a. induction l as [|x l IH]; intros a; simpl; [lia|].
  rewrite (IH (a + x)), (IH (0 + x)). lia.
Qed.

Lemma sum_cons (x : Z) (l : list Z) : sum (x :: l) = x + sum l.
Proof. unfold sum. simpl. apply fold_left_add_from. Qed.

Lemma sum_header (a b c : Z) (p : list Z) :
  sum (a :: b :: c :: p) = a + b + c + sum p.
Proof. rewrite !sum_cons. lia. Qed.

(** The low eight bits, as the code masks them. *)
Lemma land_255 (x : Z) : Z.land x 255 = x mod 256.
Proof. change 255 with (Z.ones 8). now rewrite Z.land_ones. Qed.

Lemma land_255_byte (x : Z) : 0 <= x < 256 -> Z.land x 255 = x.
Proof. intros H. rewrite land_255. now apply Z.mod_small. Qed.

Lemma land_lxor_distr (a b c : Z) :
  Z.land (Z.lxor a b) c = Z.lxor (Z.land a c) (Z.land b c).
Proof.
  apply Z.bits_inj'. intros n _.
  rewrite Z.land_spec, !Z.lxor_spec, !Z.land_spec.
  now destruct (Z.testbit a n), (Z.testbit b n), (Z.testbit c n).
Qed.

(** On a byte, [^ 0xFF] is the one's complement [255 - y]. *)
Lemma lxor_255_byte (y : Z) : 0 <= y < 256 -> Z.lxor y 255 = 255 - y.
Proof.
  intros H.
  assert (Hall : forallb (fun n => Z.lxor (Z.of_nat n) 255 =? 255 - Z.of_nat n)
                   (seq 0 256) = true) by (vm_compute; reflexivity).
  rewrite forallb_forall in Hall.
  specialize (Hall (Z.to_nat y)).
  rewrite Z2Nat.id in Hall by lia.
  apply Z.eqb_eq, Hall, in_seq. lia.
Qed.

(** [(x ^ 0xFF) & 0xFF] is the one's complement of [x], truncated to
    eight bits. *)
Lemma complement8 (x : Z) : Z.land (Z.lxor x 255) 255 = 255 - x mod 256.
Proof.
  rewrite land_lxor_distr.
  change (Z.land 255 255) with 255.
  rewrite land_255. apply lxor_255_byte, Z.mod_pos_bound. lia.
Qed.

Lemma complement8_byte (x : Z) : 0 <= Z.land (Z.lxor x 255) 255 < 256.
Proof.
  rewrite complement8. pose proof (Z.mod_pos_bound x 256). lia.
Qed.

(** Flipping bit [k] adds or subtracts [2 ^ k]. *)
Lemma lxor_pow2_clear (b k : Z) :
  0 <= k -> Z.testbit b k = false -> Z.lxor b (2 ^ k) = b + 2 ^ k.
Proof.
  intros Hk Hb. symmetry. apply Z.add_nocarry_lxor.
  apply Z.bits_inj'. intros n Hn.
  rewrite Z.land_spec, Z.pow2_bits_eqb, Z.bits_0 by lia.
  destruct (Z.eqb_spec k n) as [->|_].
  - rewrite Hb. reflexivity.
  - apply andb_false_r.
Qed.

Lemma lxor_pow2 (b k : Z) :
  0 <= k ->
  Z.lxor b (2 ^ k) = if Z.testbit b k then b - 2 ^ k else b + 2 ^ k.
Proof.
  intros Hk. destruct (Z.testbit b k) eqn:Hb.
  - assert (Hc : Z.testbit (Z.lxor b (2 ^ k)) k = false).
    { rewrite Z.lxor_spec, Hb, Z.pow2_bits_eqb, Z.eqb_refl by lia.
      reflexivity. }
    apply (lxor_pow2_clear _ _ Hk) in Hc.
    rewrite Z.lxor_assoc, Z.lxor_nilpotent, Z.lxor_0_r in Hc. lia.
  - now apply lxor_pow2_clear.
Qed.

(** A flipped bit among the low eight changes the value modulo 256. *)
Lemma flip_changes_mod256 (b k : Z) :
  0 <= k < 8 -> (Z.lxor b (2 ^ k) - b) mod 256 <> 0.
Proof.
  intros Hk. rewrite lxor_pow2 by lia.
  assert (Hp : 2 ^ k = 1 \/ 2 ^ k = 2 \/ 2 ^ k = 4 \/ 2 ^ k = 8 \/
               2 ^ k = 16 \/ 2 ^ k = 32 \/ 2 ^ k = 64 \/ 2 ^ k = 128).
  { assert (Hc : k = 0 \/ k = 1 \/ k = 2 \/ k = 3 \/
                 k = 4 \/ k = 5 \/ k = 6 \/ k = 7) by lia.
    repeat (destruct Hc as [->|Hc]; [simpl; tauto|]). subst k. simpl. tauto. }
  destruct (Z.testbit b k);
    repeat (destruct Hp as [->|Hp]; [intros E; apply Z.mod_divide in E; [|lia];
                                     destruct E as [q E]; lia|]);
    rewrite Hp; intros E; apply Z.mod_divide in E; try lia;
    destruct E as [q E]; lia.
Qed.

Lemma flip_byte (b k : Z) :
  0 <= b < 256 -> 0 <= k < 8 -> 0 <= Z.lxor b (2 ^ k) < 256.
Proof.
  intros Hb Hk.
  assert (E : Z.land (Z.lxor b (2 ^ k)) 255 = Z.lxor b (2 ^ k)).
  { rewrite land_lxor_distr, (land_255_byte b Hb).
    f_equal. apply land_255_byte.
    split; [apply Z.pow_nonneg; lia|].
    change 256 with (2 ^ 8). apply Z.pow_lt_mono_r; lia. }
  rewrite <- E, land_255. apply Z.mod_pos_bound. lia.
Qed.

End Arithmetic.

(** ** The frame codec, case by case *)

Ltac run_method :=
  unfold mbind, M_bind, mret, M_ret, bind, lift, raise, ret, get, put,
    set_fc, set_payload, index; simpl.

Section Codec.

(** The checksum of a buffer with a full header: the one's complement of
    the sum of all bytes but the (masked) checksum byte. *)
Lemma calculateChecksum_header (a b c : Z) (p : list Z) :
  calculateChecksum (a :: b :: c :: p)
  = Return (255 - (a + b + c + sum p - Z.land c 255) mod 256).
Proof.
  unfold calculateChecksum, index. simpl.
  now rewrite complement8, sum_header.
Qed.

Lemma calculateChecksum_short (data : list Z) :
  (length data < 3)%nat -> calculateChecksum data = Raise IndexError.
Proof.
  intros H. unfold calculateChecksum, index.
  destruct data as [|a [|b [|c p]]]; simpl in *; try reflexivity; lia.
Qed.

Lemma checksum_of_byte (m : CpPhyMessage.t) : 0 <= checksum_of m < 256.
Proof.
  unfold checksum_of.
  pose proof (Z.mod_pos_bound
    (fc m + Z.of_nat (length (payload m)) + sum (payload m)) 256).
  lia.
Qed.

Lemma getRawData_eq (m : CpPhyMessage.t) :
  getRawData m
  = Return (fc m :: Z.of_nat (length (payload m)) :: checksum_of m
            :: payload m).
Proof.
  unfold getRawData. simpl app. rewrite calculateChecksum_header. simpl.
  unfold checksum_of. change (Z.land 0 255) with 0.
  now rewrite Z.add_0_r, Z.sub_0_r.
Qed.

Lemma setRawData_nil (m : CpPhyMessage.t) :
  setRawData [] m = (Raise IndexError, m).
Proof. reflexivity. Qed.

Lemma setRawData_nop (rest : list Z) (m : CpPhyMessage.t) :
  setRawData (RPI_PACK_NOP :: rest) m
  = (Return tt, CpPhyMessage.mk RPI_PACK_NOP (payload m)).
Proof. reflexivity. Qed.

Lemma setRawData_short (b0 : Z) (rest : list Z) (m : CpPhyMessage.t) :
  b0 <> RPI_PACK_NOP -> (length rest < 2)%nat ->
  setRawData (b0 :: rest) m
  = (Raise (PhyErr MessageTooSmall), CpPhyMessage.mk b0 (payload m)).
Proof.
  intros Hb Hl. unfold setRawData. run_method.
  apply Z.eqb_neq in Hb. rewrite Hb.
  destruct rest as [|b1 [|b2 p]]; simpl in *; try reflexivity; lia.
Qed.

Lemma setRawData_full (b0 b1 b2 : Z) (p : list Z) (m : CpPhyMessage.t) :
  b0 <> RPI_PACK_NOP ->
  setRawData (b0 :: b1 :: b2 :: p) m
  = if negb (255 - (b0 + b1 + b2 + sum p - Z.land b2 255) mod 256 =? b2)
    then (Raise (PhyErr InvalidChecksum), CpPhyMessage.mk b0 (payload m))
    else if (b0 <? 0) || (b0 >? RPI_PACK_FC_MAX)
    then (Raise (PhyErr (UnknownFrameControl b0)), CpPhyMessage.mk b0 p)
    else if negb (Z.of_nat (length p) =? b1)
    then (Raise (PhyErr InvalidPayloadLength), CpPhyMessage.mk b0 p)
    else (Return tt, CpPhyMessage.mk b0 p).
Proof.
  intros Hb. unfold setRawData. run_method.
  apply Z.eqb_neq in Hb. rewrite Hb.
  rewrite complement8, sum_header. change (drop 0 p) with p.
  destruct (negb _); [reflexivity|]. simpl.
  destruct (_ || _); [reflexivity|].
  destruct (negb _); reflexivity.
Qed.

End Codec.

(** ** Encoding, then decoding *)

Section RoundTrip.

(** A buffer that [getRawData] built passes the checksum test of
    [setRawData]. *)
Lemma encoded_checksum_ok (m : CpPhyMessage.t) :
  255 - (fc m + Z.of_nat (length (payload m)) + checksum_of m
         + sum (payload m) - Z.land (checksum_of m) 255) mod 256
  = checksum_of m.
Proof.
  rewrite (land_255_byte _ (checksum_of_byte m)).
  unfold checksum_of at 3. do 2 f_equal. lia.
Qed.

(** Decoding an encoded frame whose frame control is one of [RESET] ..
    [NACK] gives the frame back, whatever the receiving object held. *)
Lemma decode_encoded (f : Z) (p : list Z) (m0 : CpPhyMessage.t) :
  1 <= f <= 7 ->
  exists data,
    getRawData (CpPhyMessage.mk f p) = Return data /\
    setRawData data m0 = (Return tt, CpPhyMessage.mk f p).
Proof.
  intros Hf. eexists. split; [apply getRawData_eq|]. simpl.
  rewrite setRawData_full by (unfold RPI_PACK_NOP; lia).
  pose proof (encoded_checksum_ok (CpPhyMessage.mk f p)) as Hok.
  simpl in Hok. rewrite Hok, Z.eqb_refl. simpl.
  replace ((f <? 0) || (f >? RPI_PACK_FC_MAX)) with false
    by (symmetry; apply orb_false_iff; unfold RPI_PACK_FC_MAX, RPI_PACK_NACK;
        split; lia).
  now rewrite Z.eqb_refl.
Qed.

(** An encoded [NOP] decodes to [NOP], and the payload of the receiving
    object is left as it was. *)
Lemma decode_encoded_nop (p : list Z) (m0 : CpPhyMessage.t) :
  exists data,
    getRawData (CpPhyMessage.mk RPI_PACK_NOP p) = Return data /\
    setRawData data m0 = (Return tt, CpPhyMessage.mk RPI_PACK_NOP (payload m0)).
Proof. eexists. split; [apply getRawData_eq|]. apply setRawData_nop. Qed.

End RoundTrip.

(** C1, as stated, fails: a [NOP] frame built with the payload [[1]] is
    encoded with its payload, but decoding the buffer into a fresh message
    stops at the [NOP] test and leaves the payload empty. *)
Lemma C1_nop_payload_not_decoded :
  getRawData (CpPhyMessage.mk RPI_PACK_NOP [1]) = Return [0; 1; 253; 1] /\
  setRawData [0; 1; 253; 1] (CpPhyMessage.init 0)
  = (Return tt, CpPhyMessage.mk RPI_PACK_NOP []) /\
  CpPhyMessage.mk RPI_PACK_NOP [] <> CpPhyMessage.mk RPI_PACK_NOP [1].
Proof. repeat split; try reflexivity. discriminate. Qed.

(** C1 (amended): for every frame control in 0..7 and every payload of at
    most 255 elements, where a [NOP] frame has the empty payload,
    [getRawData] returns a buffer, and [setRawData] of that buffer on a
    fresh message returns and leaves exactly that frame control and that
    payload in the message. *)
Theorem C1_roundtrip (f : Z) (p : list Z) :
  0 <= f <= 7 ->
  (length p <= 255)%nat ->
  (f = RPI_PACK_NOP -> p = []) ->
  exists data,
    getRawData (CpPhyMessage.mk f p) = Return data /\
    setRawData data (CpPhyMessage.init 0) = (Return tt, CpPhyMessage.mk f p).
Proof.
  intros Hf _ Hnop. destruct (Z.eq_dec f RPI_PACK_NOP) as [E|E].
  - rewrite (Hnop E), E. apply (decode_encoded_nop [] (CpPhyMessage.init 0)).
  - apply decode_encoded. unfold RPI_PACK_NOP in E. lia.
Qed.

Lemma C1_roundtrip_witness :
  exists data,
    getRawData (CpPhyMessage.mk RPI_PACK_PB_SDR [16; 2; 3]) = Return data /\
    setRawData data (CpPhyMessage.init 0)
    = (Return tt, CpPhyMessage.mk RPI_PACK_PB_SDR [16; 2; 3]).
Proof.
  apply (C1_roundtrip RPI_PACK_PB_SDR [16; 2; 3]).
  - unfold RPI_PACK_PB_SDR. lia.
  - simpl. lia.
  - discriminate.
Defined.

(** C2: for every frame control and every payload of at most 255
    elements, [getRawData] returns a buffer [b] of length [3 + len(payload)]
    whose byte 2 is [calculateChecksum(b)]; that value is
    [((sum(b) - b[2]) ^ 0xFF) & 0xFF], which is the one's complement,
    truncated to eight bits, of the sum of all elements of [b] but the one
    at index 2. *)
Theorem C2_checksum_invariant (f : Z) (p : list Z) :
  (length p <= 255)%nat ->
  exists b b2,
    getRawData (CpPhyMessage.mk f p) = Return b /\
    length b = (3 + length p)%nat /\
    b !! 2%nat = Some b2 /\
    calculateChecksum b = Return b2 /\
    b2 = Z.land (Z.lxor (sum b - b2) 255) 255 /\
    b2 = 255 - sum (delete 2%nat b) mod 256.
Proof.
  intros _. set (m := CpPhyMessage.mk f p).
  pose proof (checksum_of_byte m) as Hbyte.
  pose proof (encoded_checksum_ok m) as Hok.
  rewrite (land_255_byte _ Hbyte) in Hok. simpl in Hok.
  exists (f :: Z.of_nat (length p) :: checksum_of m :: p), (checksum_of m).
  split; [apply (getRawData_eq m)|].
  split; [reflexivity|]. split; [reflexivity|].
  split; [|split].
  - rewrite calculateChecksum_header, (land_255_byte _ Hbyte).
    now rewrite Hok.
  - now rewrite complement8, sum_header, Hok.
  - simpl. rewrite !sum_cons. unfold checksum_of. simpl.
    do 2 f_equal. lia.
Qed.

Lemma C2_checksum_invariant_witness :
  exists b b2,
    getRawData (CpPhyMessage.mk RPI_PACK_SETCFG [3]) = Return b /\
    length b = (3 + length [3])%nat /\
    b !! 2%nat = Some b2 /\
    calculateChecksum b = Return b2 /\
    b2 = Z.land (Z.lxor (sum b - b2) 255) 255 /\
    b2 = 255 - sum (delete 2%nat b) mod 256.
Proof. apply (C2_checksum_invariant RPI_PACK_SETCFG [3]). simpl. lia. Defined.

(** ** Corrupted buffers *)

Section Corruption.

Variables (f : Z) (p : list Z) (k : Z).
Hypothesis Hk : 0 <= k < 8.

Let m := CpPhyMessage.mk f p.
Let len := Z.of_nat (length p).
Let c := checksum_of m.
Let s := f + len + sum p.

Local Lemma shiftl_pow2 : Z.shiftl 1 k = 2 ^ k.
Proof. rewrite Z.shiftl_1_l. reflexivity. Qed.

Local Lemma c_eq : c = 255 - s mod 256.
Proof. reflexivity. Qed.

(** A flipped header byte moves the sum, so the stored checksum no
    longer matches. *)
Lemma moved_sum_mismatch (x x' : Z) :
  (x' - x) mod 256 <> 0 ->
  255 - (s - x + x' + c - Z.land c 255) mod 256 <> c.
Proof.
  intros Hx. rewrite (land_255_byte c (checksum_of_byte m)), c_eq.
  intros E. apply Hx.
  assert (E' : (s + (x' - x)) mod 256 = s mod 256).
  { replace (s + (x' - x)) with
      (s - x + x' + (255 - s mod 256) - (255 - s mod 256)) by lia. lia. }
  rewrite Z.add_mod in E' by lia.
  pose proof (Z.mod_pos_bound s 256) as Hs.
  pose proof (Z.mod_pos_bound (x' - x) 256) as Hd.
  destruct (Z.eq_dec ((x' - x) mod 256) 0) as [Z0|NZ]; [exact Z0|exfalso].
  destruct (Z_lt_dec (s mod 256 + (x' - x) mod 256) 256) as [Lt|Ge].
  - rewrite Z.mod_small in E' by lia. lia.
  - replace (s mod 256 + (x' - x) mod 256)
      with (s mod 256 + (x' - x) mod 256 - 256 + 1 * 256) in E' by lia.
    rewrite Z.mod_add, Z.mod_small in E' by lia. lia.
Qed.

(** A flipped checksum byte differs from the checksum of the rest. *)
Lemma flipped_checksum_mismatch :
  let c' := Z.lxor c (2 ^ k) in
  255 - (f + len + c' + sum p - Z.land c' 255) mod 256 <> c'.
Proof.
  intros c'.
  rewrite (land_255_byte c' (flip_byte c k (checksum_of_byte m) Hk)).
  replace (f + len + c' + sum p - c') with s by (unfold s; lia).
  rewrite <- c_eq. intros E.
  pose proof (flip_changes_mod256 c k Hk) as Hne.
  fold c' in Hne. rewrite <- E, Z.sub_diag in Hne. now apply Hne.
Qed.

(** Whichever of the three header bytes has bit [k] flipped, the checksum
    that [setRawData] recomputes differs from byte 2 of the buffer. *)
Lemma flipped_header_checksum (i : nat) :
  (i < 3)%nat ->
  exists b0 b1 b2,
    flip_bit (f :: len :: c :: p) i k = b0 :: b1 :: b2 :: p /\
    255 - (b0 + b1 + b2 + sum p - Z.land b2 255) mod 256 <> b2.
Proof.
  intros Hi. unfold flip_bit. rewrite shiftl_pow2.
  destruct i as [|[|[|i]]]; [| | |lia]; simpl; eexists _, _, _;
    (split; [reflexivity|]).
  - replace (Z.lxor f (2 ^ k) + len + c + sum p - Z.land c 255)
      with (s - f + Z.lxor f (2 ^ k) + c - Z.land c 255) by (unfold s; lia).
    apply moved_sum_mismatch, flip_changes_mod256, Hk.
  - replace (f + Z.lxor len (2 ^ k) + c + sum p - Z.land c 255)
      with (s - len + Z.lxor len (2 ^ k) + c - Z.land c 255)
      by (unfold s; lia).
    apply moved_sum_mismatch, flip_changes_mod256, Hk.
  - apply flipped_checksum_mismatch.
Qed.

End Corruption.

(** C3, as stated, fails: the encoded [RESET] frame is [[1; 0; 254]];
    flipping bit 0 of byte 0 gives [[0; 0; 254]], whose checksum (255) does
    not match byte 2, and yet [setRawData] accepts it, as a [NOP]. *)
Lemma C3_flip_to_nop_accepted :
  getRawData (CpPhyMessage.init RPI_PACK_RESET) = Return [1; 0; 254] /\
  flip_bit [1; 0; 254] 0 0 = [0; 0; 254] /\
  calculateChecksum [0; 0; 254] = Return 255 /\
  setRawData [0; 0; 254] (CpPhyMessage.init 0)
  = (Return tt, CpPhyMessage.mk RPI_PACK_NOP []).
Proof. repeat split; reflexivity. Qed.

(** C3 (amended): [getRawData] of a frame with frame control in 1..7
    returns a buffer such that flipping any one of the eight bits of any of
    its first three bytes gives a buffer whose recomputed checksum differs
    from its byte 2 (no single flip gives a valid checksum); and, unless the
    flip turns byte 0 into [NOP], [setRawData] of the flipped buffer raises
    "Invalid checksum", having stored the flipped byte 0 as frame control. *)
Theorem C3_corruption_detected (f : Z) (p : list Z) :
  1 <= f <= 7 ->
  exists data,
    getRawData (CpPhyMessage.mk f p) = Return data /\
    forall (i : nat) (k : Z) (m0 : CpPhyMessage.t),
      (i < 3)%nat -> 0 <= k < 8 ->
      calculateChecksum (flip_bit data i k) <> index (flip_bit data i k) 2 /\
      forall b0,
        flip_bit data i k !! 0%nat = Some b0 -> b0 <> RPI_PACK_NOP ->
        setRawData (flip_bit data i k) m0
        = (Raise (PhyErr InvalidChecksum), CpPhyMessage.mk b0 (payload m0)).
Proof.
  intros Hf. eexists. split; [apply getRawData_eq|]. cbn [fc payload].
  intros i k m0 Hi Hk.
  destruct (flipped_header_checksum f p k Hk i Hi) as (b0 & b1 & b2 & -> & Hne).
  split.
  - rewrite calculateChecksum_header. unfold index. simpl. congruence.
  - intros b0' [= <-] Hnop. rewrite setRawData_full by assumption.
    apply Z.eqb_neq in Hne. now rewrite Hne.
Qed.

Lemma C3_corruption_detected_witness :
  exists data,
    getRawData (CpPhyMessage.mk RPI_PACK_PB_SDN [16; 2; 3]) = Return data /\
    forall (i : nat) (k : Z) (m0 : CpPhyMessage.t),
      (i < 3)%nat -> 0 <= k < 8 ->
      calculateChecksum (flip_bit data i k) <> index (flip_bit data i k) 2 /\
      forall b0,
        flip_bit data i k !! 0%nat = Some b0 -> b0 <> RPI_PACK_NOP ->
        setRawData (flip_bit data i k) m0
        = (Raise (PhyErr InvalidChecksum), CpPhyMessage.mk b0 (payload m0)).
Proof.
  apply (C3_corruption_detected RPI_PACK_PB_SDN [16; 2; 3]).
  unfold RPI_PACK_PB_SDN. lia.
Defined.

Example flip_length_bit :
  setRawData (flip_bit [5; 3; 226; 16; 2; 3] 1 2) (CpPhyMessage.init 0)
  = (Raise (PhyErr InvalidChecksum), CpPhyMessage.mk 5 []).
Proof. reflexivity. Qed.

(** ** Order of the checks in [setRawData] *)

(** C4: on every buffer of at least three bytes whose byte 2 is the
    checksum of the buffer, whose byte 0 is outside 0..7 and whose byte 1
    differs from the number of bytes after the header, [setRawData] raises
    "Unknown frame control", not "Invalid payload length". *)
Theorem C4_unknown_fc_before_length (b0 b1 b2 : Z) (p : list Z)
    (m0 : CpPhyMessage.t) :
  let data := b0 :: b1 :: b2 :: p in
  (3 <= length data)%nat ->
  calculateChecksum data = Return b2 ->
  b0 < 0 \/ 7 < b0 ->
  Z.of_nat (length p) <> b1 ->
  fst (setRawData data m0) = Raise (PhyErr (UnknownFrameControl b0)) /\
  fst (setRawData data m0) <> Raise (PhyErr InvalidPayloadLength).
Proof.
  intros data _ Hc Hfc _. unfold data in *.
  rewrite calculateChecksum_header in Hc. injection Hc as Hc.
  rewrite setRawData_full by (unfold RPI_PACK_NOP; lia).
  rewrite Hc, Z.eqb_refl. simpl.
  replace ((b0 <? 0) || (b0 >? RPI_PACK_FC_MAX)) with true.
  - split; [reflexivity|discriminate].
  - symmetry. apply orb_true_iff. unfold RPI_PACK_FC_MAX, RPI_PACK_NACK.
    destruct Hfc; [left|right]; lia.
Qed.

Lemma C4_unknown_fc_before_length_witness :
  fst (setRawData [9; 5; 241] (CpPhyMessage.init 0))
    = Raise (PhyErr (UnknownFrameControl 9)) /\
  fst (setRawData [9; 5; 241] (CpPhyMessage.init 0))
    <> Raise (PhyErr InvalidPayloadLength).
Proof.
  apply (C4_unknown_fc_before_length 9 5 241 [] (CpPhyMessage.init 0)).
  - simpl. lia.
  - reflexivity.
  - lia.
  - simpl. lia.
Defined.

(** ** [NOP] and short buffers *)

(** C5: [setRawData] of the one-byte buffer [[0x00]] on a fresh message
    returns and leaves the frame control [NOP] with the empty payload; and
    every buffer whose byte 0 is [NOP] is accepted, whatever follows byte 0
    (no size, checksum, range or length check is made), with the payload
    of the message untouched. *)
Theorem C5_nop_decode :
  setRawData [0] (CpPhyMessage.init 0)
    = (Return tt, CpPhyMessage.mk RPI_PACK_NOP []) /\
  forall (rest : list Z) (m0 : CpPhyMessage.t),
    setRawData (RPI_PACK_NOP :: rest) m0
    = (Return tt, CpPhyMessage.mk RPI_PACK_NOP (payload m0)).
Proof. split; [reflexivity|]. intros rest m0. apply setRawData_nop. Qed.

Example nop_with_bad_checksum :
  calculateChecksum [0; 7; 0; 1] = Return 247 /\
  setRawData [0; 7; 0; 1] (CpPhyMessage.init 0)
  = (Return tt, CpPhyMessage.mk RPI_PACK_NOP []).
Proof. split; reflexivity. Qed.

(** C8: [setRawData] of the empty buffer raises the built-in [IndexError]
    (and leaves the message as it was), not "Message too small"; and
    "Message too small" is raised exactly on the buffers of one or two
    elements whose byte 0 is not [NOP]. *)
Theorem C8_empty_buffer_index_error :
  (forall m0 : CpPhyMessage.t, setRawData [] m0 = (Raise IndexError, m0)) /\
  (forall (data : list Z) (m0 : CpPhyMessage.t),
     fst (setRawData data m0) = Raise (PhyErr MessageTooSmall)
     <-> (length data = 1%nat \/ length data = 2%nat) /\
         data !! 0%nat <> Some RPI_PACK_NOP).
Proof.
  split; [intros m0; reflexivity|].
  intros data m0. destruct data as [|b0 rest].
  { simpl. split; [discriminate|]. intros [[?|?] _]; discriminate. }
  destruct (Z.eq_dec b0 RPI_PACK_NOP) as [->|Hb].
  { rewrite setRawData_nop. simpl. split; [discriminate|].
    intros [_ H]. now destruct H. }
  destruct rest as [|b1 [|b2 p]].
  1, 2: rewrite setRawData_short by (simpl; auto); simpl;
        (split; [intros _; split; [auto|congruence]|reflexivity]).
  rewrite setRawData_full by assumption. split.
  - destruct (negb _); [discriminate|].
    destruct (_ || _); [discriminate|].
    destruct (negb _); discriminate.
  - simpl. intros [[?|?] _]; discriminate.
Qed.

(** ** What a failed [setRawData] leaves behind *)

(** C9, as stated, fails on the empty buffer: [setRawData] raises (the
    built-in [IndexError]), the buffer has no byte 0, and the frame control
    of the message is still the one it held before the call. *)
Lemma C9_empty_buffer_keeps_fc :
  setRawData [] (CpPhyMessage.mk RPI_PACK_PB_SDN [7])
    = (Raise IndexError, CpPhyMessage.mk RPI_PACK_PB_SDN [7]) /\
  ([] : list Z) !! 0%nat
    <> Some (fc (snd (setRawData [] (CpPhyMessage.mk RPI_PACK_PB_SDN [7])))).
Proof. split; [reflexivity|discriminate]. Qed.

(** C9 (amended): for every non-empty buffer on which [setRawData] raises,
    the frame control of the message is byte 0 of the buffer when the
    exception leaves the method; and when the exception is "Unknown frame
    control" or "Invalid payload length", the payload of the message is the
    buffer from index 3 on.  The state before the call is not restored. *)
Theorem C9_decode_not_atomic (data : list Z) (m0 m' : CpPhyMessage.t)
    (e : exn) :
  data <> [] ->
  setRawData data m0 = (Raise e, m') ->
  data !! 0%nat = Some (fc m') /\
  ((exists v, e = PhyErr (UnknownFrameControl v)) \/
   e = PhyErr InvalidPayloadLength ->
   payload m' = drop 3 data).
Proof.
  intros Hne. destruct data as [|b0 rest]; [congruence|]. clear Hne.
  destruct (Z.eq_dec b0 RPI_PACK_NOP) as [->|Hb].
  { rewrite setRawData_nop. discriminate. }
  destruct rest as [|b1 [|b2 p]].
  1, 2: rewrite setRawData_short by (simpl; auto); intros [= <- <-];
        (split; [reflexivity|]); intros [[v [=]]|[=]].
  rewrite setRawData_full by assumption.
  destruct (negb _).
  { intros [= <- <-]. split; [reflexivity|]. intros [[v [=]]|[=]]. }
  destruct (_ || _).
  { intros [= <- <-]. split; reflexivity. }
  destruct (negb _); [|discriminate].
  intros [= <- <-]. split; reflexivity.
Qed.

Lemma C9_decode_not_atomic_witness :
  [9; 5; 241] !! 0%nat = Some (fc (CpPhyMessage.mk 9 [])) /\
  ((exists v, PhyErr (UnknownFrameControl 9) = PhyErr (UnknownFrameControl v)) \/
   PhyErr (UnknownFrameControl 9) = PhyErr InvalidPayloadLength ->
   payload (CpPhyMessage.mk 9 []) = drop 3 [9; 5; 241]).
Proof.
  apply (C9_decode_not_atomic [9; 5; 241] (CpPhyMessage.mk RPI_PACK_ACK [1; 2])).
  - discriminate.
  - reflexivity.
Defined.

Example failed_decode_overwrites :
  setRawData [4; 9; 209; 16; 17] (CpPhyMessage.mk RPI_PACK_ACK [1; 2])
  = (Raise (PhyErr InvalidPayloadLength), CpPhyMessage.mk 4 [16; 17]).
Proof. reflexivity. Qed.

(** ** Polling for a reply *)

Import CpPhy.

Section Polling.

Variable irq : nat -> bool.
Variable miso : nat -> Z.

Lemma pollReply_idle (self : CpPhy.t) :
  irq (irq_polls self) = false ->
  pollReply irq miso self
  = (Return None,
     CpPhy.mk (S (irq_polls self)) (rx_count self) (tx_log self)).
Proof. intros H. unfold pollReply. run_method. now rewrite H. Qed.

(** Shape of the assembled buffer. *)
Lemma assembled_shape (self : CpPhy.t) :
  assembled miso self
  = miso (rx_count self) :: miso (S (rx_count self))
    :: miso (S (S (rx_count self)))
    :: (miso <$> seq (rx_count self + 3)
          (Z.to_nat (Z.land (miso (S (rx_count self))) 255))).
Proof. unfold assembled. rewrite seq_app, fmap_app. reflexivity. Qed.

Lemma pollReply_event (self : CpPhy.t) :
  irq (irq_polls self) = true ->
  pollReply irq miso self
  = match setRawData (assembled miso self) (CpPhyMessage.init 0) with
    | (Return _, message) => (Return (Some message), after_poll miso self)
    | (Raise e, _) => (Raise e, after_poll miso self)
    | (Spinning, _) => (Spinning, after_poll miso self)
    end.
Proof.
  intros H. rewrite assembled_shape.
  unfold pollReply, after_poll. run_method. rewrite H. simpl.
  change (Z.to_nat (Z.of_nat RASPI_PACK_HDR_LEN)) with 3%nat.
  destruct (Z.eqb_spec (Z.land (miso (S (rx_count self))) 255) 0)
    as [E|E]; simpl.
  - rewrite E. simpl. rewrite Nat.add_0_r.
    now destruct (setRawData _ _) as [[| |] ?].
  - rewrite <- Nat.add_assoc.
    now destruct (setRawData _ _) as [[| |] ?].
Qed.

Lemma pollReply_tx_log (self : CpPhy.t) :
  tx_log (snd (pollReply irq miso self)) = tx_log self.
Proof.
  destruct (irq (irq_polls self)) eqn:H.
  - rewrite pollReply_event by assumption.
    now destruct (setRawData _ _) as [[| |] ?].
  - now rewrite pollReply_idle.
Qed.

(** A poll that sees the event does not answer [None]. *)
Lemma pollReply_event_not_none (self : CpPhy.t) :
  irq (irq_polls self) = true ->
  fst (pollReply irq miso self) <> Return None.
Proof.
  intros H. rewrite pollReply_event by assumption.
  now destruct (setRawData _ _) as [[| |] ?].
Qed.

Lemma pollReply_not_spinning (self : CpPhy.t) :
  fst (pollReply irq miso self) <> Spinning.
Proof.
  destruct (irq (irq_polls self)) eqn:H.
  - rewrite pollReply_event by assumption.
    destruct (assembled miso self) as [|b0 rest] eqn:E.
    { rewrite assembled_shape in E. discriminate. }
    unfold setRawData. run_method.
    repeat (match goal with
            | |- context [if ?c then _ else _] => destruct c
            | |- context [match ?l !! ?i with _ => _ end] => destruct (l !! i)
            | |- context [match calculateChecksum ?d with _ => _ end] =>
                let Hc := fresh in
                destruct (calculateChecksum d) eqn:Hc;
                [| |unfold calculateChecksum, index in Hc;
                    destruct (d !! 2%nat); discriminate]
            end; simpl; try discriminate).
  - rewrite pollReply_idle by assumption. discriminate.
Qed.

Lemma pollReply_polls (self : CpPhy.t) :
  irq_polls (snd (pollReply irq miso self)) = S (irq_polls self).
Proof.
  destruct (irq (irq_polls self)) eqn:H.
  - rewrite pollReply_event by assumption.
    now destruct (setRawData _ _) as [[| |] ?].
  - now rewrite pollReply_idle.
Qed.

End Polling.

(** ** The busy-wait loop *)

Section Spin.

Variable irq : nat -> bool.
Variable miso : nat -> Z.

Lemma after_idle_polls_0 (self : CpPhy.t) : after_idle_polls 0 self = self.
Proof.
  destruct self. unfold after_idle_polls. simpl. now rewrite Nat.add_0_r.
Qed.

Lemma after_idle_polls_S (n : nat) (self : CpPhy.t) :
  after_idle_polls n
    (CpPhy.mk (S (irq_polls self)) (rx_count self) (tx_log self))
  = after_idle_polls (S n) self.
Proof. unfold after_idle_polls. simpl. f_equal. lia. Qed.

(** [n] polls without an event take [n] iterations and read nothing. *)
Lemma spin_idle (n fuel : nat) (self : CpPhy.t) :
  (forall i, (i < n)%nat -> irq (irq_polls self + i) = false) ->
  spin irq miso (n + fuel) self
  = spin irq miso fuel (after_idle_polls n self).
Proof.
  revert self. induction n as [|n IH]; intros self Hidle.
  - now rewrite after_idle_polls_0.
  - assert (H0 : irq (irq_polls self) = false).
    { rewrite <- (Nat.add_0_r (irq_polls self)). apply Hidle. lia. }
    change (S n + fuel)%nat with (S (n + fuel)). cbn [spin].
    unfold mbind, M_bind, bind. rewrite (pollReply_idle _ _ _ H0).
    rewrite IH.
    + now rewrite after_idle_polls_S.
    + intros i Hi. cbn [irq_polls].
      replace (S (irq_polls self) + i)%nat with (irq_polls self + S i)%nat
        by lia.
      apply Hidle. lia.
Qed.

(** The loop is left by the first poll that sees the event, with what
    that poll answers. *)
Lemma spin_event (fuel : nat) (self : CpPhy.t) :
  irq (irq_polls self) = true ->
  spin irq miso (S fuel) self = pollReply irq miso self.
Proof.
  intros H. cbn [spin]. unfold mbind, M_bind, bind.
  pose proof (pollReply_event_not_none irq miso self H) as Hn.
  destruct (pollReply irq miso self) as [[[m|]| |] self']; try reflexivity.
  now destruct Hn.
Qed.

Lemma spin_out_of_fuel (self : CpPhy.t) :
  spin irq miso 0 self = (Spinning, self).
Proof. reflexivity. Qed.

Lemma spin_tx_log (fuel : nat) (self : CpPhy.t) :
  tx_log (snd (spin irq miso fuel self)) = tx_log self.
Proof.
  revert self. induction fuel as [|fuel IH]; intros self; [reflexivity|].
  cbn [spin]. unfold mbind, M_bind, bind.
  pose proof (pollReply_tx_log irq miso self) as Htx.
  destruct (pollReply irq miso self) as [[[m|]| |] self']; simpl in *;
    try assumption.
  now rewrite IH.
Qed.

Lemma sendMessage_sync (fuel : nat) (message : CpPhyMessage.t)
    (self : CpPhy.t) :
  exists data,
    getRawData message = Return data /\
    __sendMessage irq miso fuel message true self
    = spin irq miso fuel (after_write data self).
Proof.
  eexists. split; [apply getRawData_eq|].
  unfold __sendMessage. rewrite getRawData_eq. reflexivity.
Qed.

Lemma sendMessage_async (fuel : nat) (message : CpPhyMessage.t)
    (self : CpPhy.t) :
  exists data,
    getRawData message = Return data /\
    __sendMessage irq miso fuel message false self
    = (Return None, after_write data self).
Proof.
  eexists. split; [apply getRawData_eq|].
  unfold __sendMessage. rewrite getRawData_eq. reflexivity.
Qed.

End Spin.

(** ** Transactions *)

Section BaudTable.

Lemma baud2id_93750 : baud2id !! 93750 = Some PB_PHY_BAUD_93750.
Proof. reflexivity. Qed.

Lemma baud2id_unsupported (baudrate : Z) :
  baudrate ∉ [9600; 19200; 45450; 93750; 187500; 500000; 1500000; 3000000;
              6000000; 12000000] ->
  baud2id !! baudrate = None.
Proof. intros H. unfold baud2id. now apply not_elem_of_list_to_map_1. Qed.

Lemma baud2id_supported (baudrate : Z) :
  baudrate ∈ [9600; 19200; 45450; 93750; 187500; 500000; 1500000; 3000000;
              6000000; 12000000] ->
  exists baudID, baud2id !! baudrate = Some baudID /\ 0 <= baudID <= 9.
Proof.
  intros H. rewrite !elem_of_cons, elem_of_nil in H.
  repeat (destruct H as [->|H];
    [eexists; split; [vm_compute; reflexivity|lia]|]).
  destruct H.
Qed.

End BaudTable.

(** C6: [profibusSetPhyConfig(93750)] makes one [spi.writebytes] call, with
    the encoding [[2; 1; 249; 3]] of the [SETCFG] frame whose payload is
    [[3]] (however long the wait for the reply that follows); and for every
    baud rate that is not one of the ten of the table it raises "Invalid
    baud-rate" and leaves the link as it was: nothing is written, nothing
    is read and the event is not polled. *)
Theorem C6_set_phy_config (irq : nat -> bool) (miso : nat -> Z) (fuel : nat)
    (baudrate : Z) (self : CpPhy.t) :
  (baudrate = 93750 ->
   getRawData (CpPhyMessage.mk RPI_PACK_SETCFG [3]) = Return [2; 1; 249; 3] /\
   tx_log (snd (profibusSetPhyConfig irq miso fuel baudrate self))
   = tx_log self ++ [[2; 1; 249; 3]]) /\
  (baudrate ∉ [9600; 19200; 45450; 93750; 187500; 500000; 1500000; 3000000;
               6000000; 12000000] ->
   profibusSetPhyConfig irq miso fuel baudrate self
   = (Raise (PhyErr InvalidBaudRate), self)).
Proof.
  split.
  - intros ->. split; [reflexivity|].
    unfold profibusSetPhyConfig. rewrite baud2id_93750.
    unfold mbind, M_bind, bind at 1. cbn [ret].
    unfold bind at 1.
    destruct (sendMessage_sync irq miso fuel
                (CpPhyMessage.mk RPI_PACK_SETCFG [PB_PHY_BAUD_93750]) self)
      as (data & Hdata & ->).
    injection Hdata as <-.
    pose proof (spin_tx_log irq miso fuel (after_write [2; 1; 249; 3] self))
      as Htx.
    destruct (spin irq miso fuel _) as [[r| |] self']; exact Htx.
  - intros H. unfold profibusSetPhyConfig.
    rewrite (baud2id_unsupported _ H). reflexivity.
Qed.

Lemma C6_set_phy_config_witness :
  let self := CpPhy.mk 4 12 [[1; 0; 254]] in
  tx_log (snd (profibusSetPhyConfig (fun _ => true) (fun _ => 0) 1 93750 self))
  = [[1; 0; 254]; [2; 1; 249; 3]] /\
  profibusSetPhyConfig (fun _ => true) (fun _ => 0) 1 100 self
  = (Raise (PhyErr InvalidBaudRate), self).
Proof.
  intros self. split.
  - apply (C6_set_phy_config (fun _ => true) (fun _ => 0) 1 93750 self).
    reflexivity.
  - apply (C6_set_phy_config (fun _ => true) (fun _ => 0) 1 100 self).
    rewrite !elem_of_cons, elem_of_nil. intros H.
    repeat (destruct H as [H|H]; [discriminate H|]). destruct H.
Defined.

(** C7: when [__sendMessage] is called with [sync=True] and the [N]-th
    call of [GPIO.event_detected] after the call ([N >= 1]) is the first
    to report an event, then the frame is written, the loop polls [N]
    times (it is still polling after any smaller number of iterations),
    and the call ends as the [N]-th [pollReply] ends: it returns the
    message that this poll decoded from the assembled buffer (or raises
    what that decoding raised), and it does not return [None]. *)
Theorem C7_sync_send_returns_reply (irq : nat -> bool) (miso : nat -> Z)
    (N fuel : nat) (message : CpPhyMessage.t) (self : CpPhy.t) :
  (1 <= N)%nat ->
  (forall i, (i < N - 1)%nat -> irq (irq_polls self + i)%nat = false) ->
  irq (irq_polls self + (N - 1))%nat = true ->
  (N <= fuel)%nat ->
  exists data,
    getRawData message = Return data /\
    let polling := after_idle_polls (N - 1) (after_write data self) in
    let run := __sendMessage irq miso fuel message true self in
    run = pollReply irq miso polling /\
    (forall reply,
       setRawData (assembled miso polling) (CpPhyMessage.init 0)
       = (Return tt, reply) ->
       fst run = Return (Some reply)) /\
    irq_polls (snd run) = (irq_polls self + N)%nat /\
    fst run <> Return None /\
    fst run <> Spinning /\
    forall fuel', (fuel' < N)%nat ->
      fst (__sendMessage irq miso fuel' message true self) = Spinning.
Proof.
  intros HN Hidle Hevent Hfuel.
  destruct (sendMessage_sync irq miso fuel message self) as (data & Hdata & Hrun).
  exists data. split; [exact Hdata|]. intros polling run.
  assert (Hev : irq (irq_polls polling) = true) by exact Hevent.
  assert (Hrun' : run = pollReply irq miso polling).
  { unfold run. rewrite Hrun.
    replace fuel with ((N - 1) + S (fuel - N))%nat by lia.
    rewrite spin_idle by exact Hidle. now apply spin_event. }
  split; [exact Hrun'|]. rewrite Hrun'. repeat split.
  - intros reply Hreply. rewrite pollReply_event, Hreply by exact Hev.
    reflexivity.
  - rewrite pollReply_polls. unfold polling. simpl. lia.
  - now apply pollReply_event_not_none.
  - apply pollReply_not_spinning.
  - intros fuel' Hlt.
    destruct (sendMessage_sync irq miso fuel' message self)
      as (data' & Hdata' & ->).
    rewrite Hdata in Hdata'. injection Hdata' as <-.
    replace fuel' with (fuel' + 0)%nat by lia.
    rewrite spin_idle; [reflexivity|].
    intros i Hi. apply Hidle. lia.
Qed.

Lemma C7_sync_send_returns_reply_witness :
  let irq := fun k : nat => (2 <=? k)%nat in
  let miso := fun k : nat => nth k [6; 0; 249] 0 in
  let self := CpPhy.mk 0 0 [] in
  exists data,
    getRawData (CpPhyMessage.init RPI_PACK_RESET) = Return data /\
    let polling := after_idle_polls (3 - 1) (after_write data self) in
    let run :=
      __sendMessage irq miso 5 (CpPhyMessage.init RPI_PACK_RESET) true self in
    run = pollReply irq miso polling /\
    (forall reply,
       setRawData (assembled miso polling) (CpPhyMessage.init 0)
       = (Return tt, reply) ->
       fst run = Return (Some reply)) /\
    irq_polls (snd run) = (irq_polls self + 3)%nat /\
    fst run <> Return None /\
    fst run <> Spinning /\
    forall fuel', (fuel' < 3)%nat ->
      fst (__sendMessage irq miso fuel' (CpPhyMessage.init RPI_PACK_RESET)
             true self) = Spinning.
Proof.
  intros irq miso self.
  apply (C7_sync_send_returns_reply irq miso 3 5
           (CpPhyMessage.init RPI_PACK_RESET) self).
  - lia.
  - intros i Hi. destruct i as [|[|i]]; [reflexivity|reflexivity|simpl in Hi; lia].
  - reflexivity.
  - lia.
Defined.

Example reset_acknowledged_on_third_poll :
  __sendMessage (fun k => (2 <=? k)%nat) (fun k => nth k [6; 0; 249] 0)
    5 (CpPhyMessage.init RPI_PACK_RESET) true (CpPhy.mk 0 0 [])
  = (Return (Some (CpPhyMessage.mk RPI_PACK_ACK [])),
     CpPhy.mk 3 3 [[1; 0; 254]]).
Proof. reflexivity. Qed.

(** C10: if [spi.readbytes] delivers bytes (values in 0..255), [pollReply]
    never raises "Invalid payload length" and never raises "Message too
    small"; when the event is detected, the buffer it decodes has the
    three header bytes followed by exactly as many bytes as header byte 1
    says, so the payload sliced from it has the declared length. *)
Theorem C10_poll_length_consistent (irq : nat -> bool) (miso : nat -> Z)
    (self : CpPhy.t) :
  (forall k, 0 <= miso k < 256) ->
  fst (pollReply irq miso self) <> Raise (PhyErr InvalidPayloadLength) /\
  fst (pollReply irq miso self) <> Raise (PhyErr MessageTooSmall) /\
  (irq (irq_polls self) = true ->
   exists b1,
     assembled miso self !! 1%nat = Some b1 /\
     length (assembled miso self) = (3 + Z.to_nat b1)%nat /\
     Z.of_nat (length (drop 3 (assembled miso self))) = b1 /\
     pollReply irq miso self
     = match setRawData (assembled miso self) (CpPhyMessage.init 0) with
       | (Return _, message) => (Return (Some message), after_poll miso self)
       | (Raise e, _) => (Raise e, after_poll miso self)
       | (Spinning, _) => (Spinning, after_poll miso self)
       end).
Proof.
  intros Hbyte.
  pose proof (Hbyte (S (rx_count self))) as Hb1.
  assert (Hlen : Z.of_nat (length (drop 3 (assembled miso self)))
                 = miso (S (rx_count self))).
  { rewrite assembled_shape. cbn [drop]. change (drop 0 ?l) with l.
    rewrite length_fmap, length_seq, (land_255_byte _ Hb1). lia. }
  assert (Hno : forall e,
            e = PhyErr InvalidPayloadLength \/ e = PhyErr MessageTooSmall ->
            fst (pollReply irq miso self) <> Raise e).
  { intros e He. destruct (irq (irq_polls self)) eqn:Hirq.
    2: { rewrite pollReply_idle by assumption. discriminate. }
    rewrite pollReply_event by assumption.
    rewrite assembled_shape in Hlen |- *. cbn [drop] in Hlen.
    change (drop 0 ?l) with l in Hlen.
    destruct (Z.eq_dec (miso (rx_count self)) RPI_PACK_NOP) as [->|Hnop].
    { rewrite setRawData_nop. discriminate. }
    rewrite setRawData_full by assumption.
    destruct (negb _); [simpl; destruct He; congruence|].
    destruct (_ || _); [simpl; destruct He; congruence|].
    rewrite Hlen, Z.eqb_refl. discriminate. }
  split; [apply Hno; now left|]. split; [apply Hno; now right|].
  intros Hirq. exists (miso (S (rx_count self))).
  split; [rewrite assembled_shape; reflexivity|].
  split; [|split].
  - unfold assembled. rewrite length_fmap, length_seq, (land_255_byte _ Hb1).
    reflexivity.
  - exact Hlen.
  - now apply pollReply_event.
Qed.

Lemma C10_poll_length_consistent_witness :
  let irq := fun _ : nat => true in
  let miso := fun k : nat => nth k [4; 2; 226; 16; 7] 0 in
  let self := CpPhy.mk 0 0 [] in
  fst (pollReply irq miso self) <> Raise (PhyErr InvalidPayloadLength) /\
  fst (pollReply irq miso self) <> Raise (PhyErr MessageTooSmall) /\
  (irq (irq_polls self) = true ->
   exists b1,
     assembled miso self !! 1%nat = Some b1 /\
     length (assembled miso self) = (3 + Z.to_nat b1)%nat /\
     Z.of_nat (length (drop 3 (assembled miso self))) = b1 /\
     pollReply irq miso self
     = match setRawData (assembled miso self) (CpPhyMessage.init 0) with
       | (Return _, message) => (Return (Some message), after_poll miso self)
       | (Raise e, _) => (Raise e, after_poll miso self)
       | (Spinning, _) => (Spinning, after_poll miso self)
       end).
Proof.
  intros irq miso self.
  apply (C10_poll_length_consistent irq miso self).
  intros k. unfold miso.
  do 5 (destruct k as [|k]; [simpl; lia|]). destruct k; simpl; lia.
Defined.

Example poll_sdr_reply :
  pollReply (fun _ => true) (fun k => nth k [4; 2; 226; 16; 7] 0)
    (CpPhy.mk 0 0 [])
  = (Return (Some (CpPhyMessage.mk RPI_PACK_PB_SDR_REPLY [16; 7])),
     CpPhy.mk 1 5 []).
Proof. reflexivity. Qed.

(** * Further properties of the frame codec *)

Section ChecksumFacts.

Lemma sub_low_bits_mod (s x : Z) : (s + x - Z.land x 255) mod 256 = s mod 256.
Proof.
  rewrite land_255.
  replace (s + x - x mod 256) with (s + (x / 256) * 256)
    by (pose proof (Z.div_mod x 256); lia).
  apply Z.mod_add. lia.
Qed.

Lemma sum_app (l1 l2 : list Z) : sum (l1 ++ l2) = sum l1 + sum l2.
Proof.
  induction l1 as [|x l1 IH]; simpl; [reflexivity|].
  rewrite !sum_cons, IH. lia.
Qed.

Lemma sum_Permutation (l1 l2 : list Z) : l1 ≡ₚ l2 -> sum l1 = sum l2.
Proof.
  induction 1 as [|x l1 l2 _ IH|x y l|l1 l2 l3 _ IH1 _ IH2].
  - reflexivity.
  - now rewrite !sum_cons, IH.
  - rewrite !sum_cons. lia.
  - congruence.
Qed.

(** Replacing one element moves the sum by the difference. *)
Lemma sum_alter (g : Z -> Z) (l : list Z) (i : nat) (x : Z) :
  l !! i = Some x -> sum (alter g i l) = sum l - x + g x.
Proof.
  revert i. induction l as [|y l IH]; intros [|i] H; simplify_eq/=.
  - rewrite !sum_cons. lia.
  - rewrite !sum_cons, (IH _ H). lia.
Qed.

End ChecksumFacts.

(** X1: [calculateChecksum] raises the built-in [IndexError] exactly on the
    buffers of fewer than three elements; on every other buffer it returns
    a value in 0..255, whatever integers the buffer holds. *)
Theorem calculateChecksum_total (data : list Z) :
  match calculateChecksum data with
  | Return c => (3 <= length data)%nat /\ 0 <= c < 256
  | Raise e => e = IndexError /\ (length data < 3)%nat
  | Spinning => False
  end.
Proof.
  destruct data as [|a [|b [|c p]]]; try (simpl; split; [reflexivity|lia]).
  rewrite calculateChecksum_header. split; [simpl; lia|].
  pose proof (Z.mod_pos_bound (a + b + c + sum p - Z.land c 255) 256). lia.
Qed.

(** X2: The checksum does not depend on the element at index 2: overwriting
    that element with any integer leaves [calculateChecksum] unchanged. *)
Theorem calculateChecksum_ignores_slot_2 (data : list Z) (x : Z) :
  calculateChecksum (<[2%nat := x]> data) = calculateChecksum data.
Proof.
  destruct data as [|a [|b [|c p]]]; try reflexivity.
  change (<[2%nat := x]> (a :: b :: c :: p)) with (a :: b :: x :: p).
  rewrite !calculateChecksum_header. do 2 f_equal.
  replace (a + b + x + sum p - Z.land x 255)
    with (a + b + sum p + x - Z.land x 255) by lia.
  replace (a + b + c + sum p - Z.land c 255)
    with (a + b + sum p + c - Z.land c 255) by lia.
  now rewrite !sub_low_bits_mod.
Qed.

(** X3: If the frame control is a byte, the payload has at most 255 elements
    and they are bytes, then every element of the buffer that [getRawData]
    returns is a byte (what [spi.writebytes] takes). *)
Theorem getRawData_bytes (m : CpPhyMessage.t) :
  0 <= fc m < 256 ->
  (length (payload m) <= 255)%nat ->
  Forall (fun x => 0 <= x < 256) (payload m) ->
  exists data,
    getRawData m = Return data /\ Forall (fun x => 0 <= x < 256) data.
Proof.
  intros Hf Hl Hp. eexists. split; [apply getRawData_eq|].
  repeat (apply Forall_cons; split); try assumption; try lia.
  apply checksum_of_byte.
Qed.

Lemma getRawData_bytes_witness :
  exists data,
    getRawData (CpPhyMessage.mk RPI_PACK_PB_SDN [16; 2; 3]) = Return data /\
    Forall (fun x => 0 <= x < 256) data.
Proof.
  apply (getRawData_bytes (CpPhyMessage.mk RPI_PACK_PB_SDN [16; 2; 3])).
  - simpl. unfold RPI_PACK_PB_SDN. lia.
  - simpl. lia.
  - simpl. repeat (apply Forall_cons; split; [lia|]). apply Forall_nil_2.
Defined.

(** With 256 payload elements the length element of the buffer is 256,
    which is not a byte. *)
Example getRawData_length_overflow :
  getRawData (CpPhyMessage.mk RPI_PACK_PB_SDN (replicate 256 0))
  = Return (5 :: 256 :: 250 :: replicate 256 0).
Proof. vm_compute. reflexivity. Qed.

(** ** What [setRawData] accepts and what it reports *)

Section DecodeTable.

Lemma fc_in_range (b0 : Z) :
  (b0 <? 0) || (b0 >? RPI_PACK_FC_MAX) = false <-> 0 <= b0 <= 7.
Proof.
  unfold RPI_PACK_FC_MAX, RPI_PACK_NACK. rewrite orb_false_iff. lia.
Qed.

Lemma checksum_test (b0 b1 b2 : Z) (p : list Z) :
  negb (255 - (b0 + b1 + b2 + sum p - Z.land b2 255) mod 256 =? b2) = false
  <-> calculateChecksum (b0 :: b1 :: b2 :: p) = Return b2.
Proof.
  rewrite calculateChecksum_header, negb_false_iff, Z.eqb_eq.
  split; [congruence|]. now intros [= ?].
Qed.

(** A checksum byte that passes the test is the one [getRawData] emits. *)
Lemma valid_checksum_is_checksum_of (b0 b2 : Z) (p : list Z) :
  calculateChecksum (b0 :: Z.of_nat (length p) :: b2 :: p) = Return b2 ->
  b2 = checksum_of (CpPhyMessage.mk b0 p).
Proof.
  rewrite calculateChecksum_header. intros [= H]. unfold checksum_of. simpl.
  rewrite <- H at 1. f_equal.
  replace (b0 + Z.of_nat (length p) + b2 + sum p - Z.land b2 255)
    with (b0 + Z.of_nat (length p) + sum p + b2 - Z.land b2 255) by lia.
  apply sub_low_bits_mod.
Qed.

(** What an accepted buffer looks like. *)
Lemma accepted_inv (data : list Z) (m0 m' : CpPhyMessage.t) :
  setRawData data m0 = (Return tt, m') ->
  (exists rest,
     data = RPI_PACK_NOP :: rest /\
     m' = CpPhyMessage.mk RPI_PACK_NOP (payload m0))
  \/ (exists b0 b2 p,
        data = b0 :: Z.of_nat (length p) :: b2 :: p /\
        1 <= b0 <= 7 /\
        calculateChecksum data = Return b2 /\
        m' = CpPhyMessage.mk b0 p).
Proof.
  destruct data as [|b0 rest]; [discriminate|].
  destruct (Z.eq_dec b0 RPI_PACK_NOP) as [->|Hb].
  { rewrite setRawData_nop. intros [= <-]. left. now exists rest. }
  destruct rest as [|b1 [|b2 p]];
    [rewrite setRawData_short by (simpl; auto); discriminate ..|].
  rewrite setRawData_full by assumption.
  destruct (negb _) eqn:E1; [discriminate|].
  destruct (_ || _) eqn:E2; [discriminate|].
  destruct (negb (_ =? b1)) eqn:E3; [discriminate|].
  intros [= <-]. right. exists b0, b2, p.
  apply negb_false_iff, Z.eqb_eq in E3. subst b1.
  apply fc_in_range in E2. apply checksum_test in E1.
  unfold RPI_PACK_NOP in Hb. repeat split; try assumption; lia.
Qed.

(** A full frame is accepted. *)
Lemma full_frame_accepted (b0 b2 : Z) (p : list Z) (m0 : CpPhyMessage.t) :
  1 <= b0 <= 7 ->
  calculateChecksum (b0 :: Z.of_nat (length p) :: b2 :: p) = Return b2 ->
  setRawData (b0 :: Z.of_nat (length p) :: b2 :: p) m0
  = (Return tt, CpPhyMessage.mk b0 p).
Proof.
  intros Hb Hc. rewrite setRawData_full by (unfold RPI_PACK_NOP; lia).
  apply checksum_test in Hc. rewrite Hc.
  assert (E2 : (b0 <? 0) || (b0 >? RPI_PACK_FC_MAX) = false)
    by (apply fc_in_range; lia).
  rewrite E2, Z.eqb_refl. reflexivity.
Qed.

End DecodeTable.

(** X4: [setRawData] returns normally in exactly two cases: byte 0 of the
    buffer is [NOP] (the message then has frame control [NOP] and keeps its
    payload), or the buffer is a full frame: frame control in 1..7, byte 1
    equal to the number of elements after the header, byte 2 equal to the
    checksum (the message then holds that frame control and those
    elements). *)
Theorem setRawData_returns_iff (data : list Z) (m0 m' : CpPhyMessage.t) :
  setRawData data m0 = (Return tt, m')
  <-> (exists rest,
         data = RPI_PACK_NOP :: rest /\
         m' = CpPhyMessage.mk RPI_PACK_NOP (payload m0))
      \/ (exists b0 b2 p,
            data = b0 :: Z.of_nat (length p) :: b2 :: p /\
            1 <= b0 <= 7 /\
            calculateChecksum data = Return b2 /\
            m' = CpPhyMessage.mk b0 p).
Proof.
  split.
  - apply accepted_inv.
  - intros [(rest & -> & ->)|(b0 & b2 & p & -> & Hb & Hc & ->)].
    + apply setRawData_nop.
    + now apply full_frame_accepted.
Qed.

(** X5: Decoding, then encoding: when [setRawData] accepts a buffer whose byte
    0 is not [NOP], [getRawData] of the decoded message returns that very
    buffer. *)
Theorem encode_decoded (data : list Z) (m0 m' : CpPhyMessage.t) :
  setRawData data m0 = (Return tt, m') ->
  data !! 0%nat <> Some RPI_PACK_NOP ->
  getRawData m' = Return data.
Proof.
  intros H Hnop. apply accepted_inv in H
    as [(rest & -> & _)|(b0 & b2 & p & -> & _ & Hc & ->)].
  - now destruct Hnop.
  - rewrite getRawData_eq. simpl.
    now rewrite <- (valid_checksum_is_checksum_of _ _ _ Hc).
Qed.

Lemma encode_decoded_witness :
  getRawData (CpPhyMessage.mk RPI_PACK_PB_SDR_REPLY [16; 7])
  = Return [4; 2; 226; 16; 7].
Proof.
  apply (encode_decoded [4; 2; 226; 16; 7]
           (CpPhyMessage.mk RPI_PACK_ACK [9])).
  - reflexivity.
  - discriminate.
Defined.

(** X6: The only built-in exception of [setRawData] is the [IndexError] of the
    empty buffer: the reads of bytes 1 and 2 come after the size test. *)
Theorem setRawData_index_error_iff (data : list Z) (m0 : CpPhyMessage.t) :
  fst (setRawData data m0) = Raise IndexError <-> data = [].
Proof.
  split; [|intros ->; reflexivity].
  destruct data as [|b0 rest]; [reflexivity|].
  destruct (Z.eq_dec b0 RPI_PACK_NOP) as [->|Hb].
  { rewrite setRawData_nop. discriminate. }
  destruct rest as [|b1 [|b2 p]];
    [rewrite setRawData_short by (simpl; auto); discriminate ..|].
  rewrite setRawData_full by assumption.
  destruct (negb _); [discriminate|].
  destruct (_ || _); [discriminate|].
  destruct (negb _); discriminate.
Qed.

(** X7: "Invalid checksum" is raised exactly on the buffers of at least three
    elements whose byte 0 is not [NOP] and whose byte 2 differs from the
    recomputed checksum, whatever the frame control and the length byte
    are; the payload of the message is then the one it had before. *)
Theorem setRawData_checksum_error_iff (data : list Z) (m0 : CpPhyMessage.t) :
  (fst (setRawData data m0) = Raise (PhyErr InvalidChecksum)
   <-> (3 <= length data)%nat /\
       data !! 0%nat <> Some RPI_PACK_NOP /\
       calculateChecksum data <> index data 2) /\
  (fst (setRawData data m0) = Raise (PhyErr InvalidChecksum) ->
   payload (snd (setRawData data m0)) = payload m0).
Proof.
  destruct data as [|b0 rest].
  { split; [split; [discriminate|simpl; lia]|discriminate]. }
  destruct (Z.eq_dec b0 RPI_PACK_NOP) as [->|Hb].
  { rewrite setRawData_nop. split; [split; [discriminate|]|discriminate].
    intros (_ & H & _). now destruct H. }
  destruct rest as [|b1 [|b2 p]].
  1, 2: rewrite setRawData_short by (simpl; auto);
        (split; [split; [discriminate|simpl; lia]|discriminate]).
  rewrite setRawData_full by assumption.
  destruct (negb _) eqn:E1.
  - split; [|reflexivity]. split; [intros _|reflexivity].
    split; [simpl; lia|]. split; [simpl; congruence|].
    intros Hc. apply checksum_test in Hc. congruence.
  - apply checksum_test in E1.
    assert (fst (if (b0 <? 0) || (b0 >? RPI_PACK_FC_MAX)
                 then (Raise (PhyErr (UnknownFrameControl b0)),
                       CpPhyMessage.mk b0 p)
                 else if negb (Z.of_nat (length p) =? b1)
                 then (Raise (PhyErr InvalidPayloadLength),
                       CpPhyMessage.mk b0 p)
                 else (Return tt, CpPhyMessage.mk b0 p))
            <> Raise (PhyErr InvalidChecksum)) as Hne.
    { destruct (_ || _); [discriminate|]. destruct (negb _); discriminate. }
    split; [split|]; intros H; now destruct Hne.
Qed.

(** X8: "Unknown frame control" is raised exactly on the buffers of at least
    three elements whose byte 2 is the checksum and whose byte 0 is
    negative or above 7; it carries byte 0, and byte 1 is not looked at. *)
Theorem setRawData_unknown_fc_iff (data : list Z) (m0 : CpPhyMessage.t)
    (v : Z) :
  fst (setRawData data m0) = Raise (PhyErr (UnknownFrameControl v))
  <-> exists b1 b2 p,
        data = v :: b1 :: b2 :: p /\
        (v < 0 \/ 7 < v) /\
        calculateChecksum data = Return b2.
Proof.
  split.
  - destruct data as [|b0 rest]; [discriminate|].
    destruct (Z.eq_dec b0 RPI_PACK_NOP) as [->|Hb].
    { rewrite setRawData_nop. discriminate. }
    destruct rest as [|b1 [|b2 p]];
      [rewrite setRawData_short by (simpl; auto); discriminate ..|].
    rewrite setRawData_full by assumption.
    destruct (negb _) eqn:E1; [discriminate|].
    destruct (_ || _) eqn:E2.
    + cbn [fst]. intros [= <-]. exists b1, b2, p.
      apply checksum_test in E1.
      split; [reflexivity|]. split; [|assumption].
      destruct (Z_lt_dec b0 0); [now left|right].
      destruct (Z_lt_dec 7 b0) as [|Hn]; [assumption|exfalso].
      assert (E : (b0 <? 0) || (b0 >? RPI_PACK_FC_MAX) = false)
        by (apply fc_in_range; lia).
      rewrite E in E2. discriminate.
    + destruct (negb (_ =? b1)); cbn [fst]; discriminate.
  - intros (b1 & b2 & p & -> & Hv & Hc).
    rewrite setRawData_full by (unfold RPI_PACK_NOP; lia).
    apply checksum_test in Hc. rewrite Hc.
    destruct (_ || _) eqn:E2; [reflexivity|].
    apply fc_in_range in E2. lia.
Qed.

(** X9: "Invalid payload length" is raised exactly on the buffers of at least
    three elements with a frame control in 1..7 and a valid checksum whose
    byte 1 differs from the number of elements after the header. *)
Theorem setRawData_length_error_iff (data : list Z) (m0 : CpPhyMessage.t) :
  fst (setRawData data m0) = Raise (PhyErr InvalidPayloadLength)
  <-> exists b0 b1 b2 p,
        data = b0 :: b1 :: b2 :: p /\
        1 <= b0 <= 7 /\
        calculateChecksum data = Return b2 /\
        b1 <> Z.of_nat (length p).
Proof.
  split.
  - destruct data as [|b0 rest]; [discriminate|].
    destruct (Z.eq_dec b0 RPI_PACK_NOP) as [->|Hb].
    { rewrite setRawData_nop. discriminate. }
    destruct rest as [|b1 [|b2 p]];
      [rewrite setRawData_short by (simpl; auto); discriminate ..|].
    rewrite setRawData_full by assumption.
    destruct (negb _) eqn:E1; [discriminate|].
    destruct (_ || _) eqn:E2; [discriminate|].
    destruct (negb (_ =? b1)) eqn:E3; [|discriminate].
    intros _. exists b0, b1, b2, p.
    apply checksum_test in E1. apply fc_in_range in E2.
    apply negb_true_iff, Z.eqb_neq in E3. unfold RPI_PACK_NOP in Hb.
    repeat split; try assumption; try lia; congruence.
  - intros (b0 & b1 & b2 & p & -> & Hb & Hc & Hl).
    rewrite setRawData_full by (unfold RPI_PACK_NOP; lia).
    apply checksum_test in Hc. rewrite Hc.
    assert (E2 : (b0 <? 0) || (b0 >? RPI_PACK_FC_MAX) = false)
      by (apply fc_in_range; lia).
    rewrite E2.
    assert (E3 : negb (Z.of_nat (length p) =? b1) = true)
      by (apply negb_true_iff, Z.eqb_neq; congruence).
    now rewrite E3.
Qed.

(** ** What the checksum detects and what it does not *)

(** X10: The checksum is a sum, so it does not see the order of the payload:
    in the encoding of a frame with frame control in 1..7, the payload can
    be replaced by any rearrangement of itself, and [setRawData] accepts
    the buffer and decodes the rearranged payload. *)
Theorem payload_order_not_checked (f : Z) (p p' : list Z)
    (m0 : CpPhyMessage.t) :
  1 <= f <= 7 ->
  p ≡ₚ p' ->
  exists c,
    getRawData (CpPhyMessage.mk f p)
    = Return (f :: Z.of_nat (length p) :: c :: p) /\
    setRawData (f :: Z.of_nat (length p) :: c :: p') m0
    = (Return tt, CpPhyMessage.mk f p').
Proof.
  intros Hf Hp. exists (checksum_of (CpPhyMessage.mk f p)).
  split; [apply getRawData_eq|].
  rewrite (Permutation_length Hp).
  apply full_frame_accepted; [assumption|].
  assert (E : checksum_of (CpPhyMessage.mk f p)
              = checksum_of (CpPhyMessage.mk f p')).
  { unfold checksum_of. simpl.
    now rewrite (Permutation_length Hp), (sum_Permutation _ _ Hp). }
  rewrite E, calculateChecksum_header.
  f_equal. apply (encoded_checksum_ok (CpPhyMessage.mk f p')).
Qed.

Lemma payload_order_not_checked_witness :
  exists c,
    getRawData (CpPhyMessage.mk RPI_PACK_PB_SDN [16; 2; 3])
    = Return (RPI_PACK_PB_SDN :: Z.of_nat (length [16; 2; 3]) :: c
              :: [16; 2; 3]) /\
    setRawData (RPI_PACK_PB_SDN :: Z.of_nat (length [16; 2; 3]) :: c
                :: [3; 16; 2]) (CpPhyMessage.init 0)
    = (Return tt, CpPhyMessage.mk RPI_PACK_PB_SDN [3; 16; 2]).
Proof.
  apply (payload_order_not_checked RPI_PACK_PB_SDN [16; 2; 3] [3; 16; 2]).
  - unfold RPI_PACK_PB_SDN. lia.
  - symmetry. apply (Permutation_cons_append [16; 2] 3).
Defined.

(** X11: A single flipped bit in the payload is detected: in the encoding of a
    frame whose frame control is not [NOP], flipping one of the eight low
    bits of any payload element makes [setRawData] raise "Invalid
    checksum". *)
Theorem payload_flip_detected (f : Z) (p : list Z) (i : nat) (k : Z)
    (m0 : CpPhyMessage.t) :
  f <> RPI_PACK_NOP ->
  (i < length p)%nat ->
  0 <= k < 8 ->
  exists data,
    getRawData (CpPhyMessage.mk f p) = Return data /\
    setRawData (flip_bit data (3 + i) k) m0
    = (Raise (PhyErr InvalidChecksum), CpPhyMessage.mk f (payload m0)).
Proof.
  intros Hf Hi Hk. eexists. split; [apply getRawData_eq|]. cbn [fc payload].
  destruct (lookup_lt_is_Some_2 p i Hi) as [x Hx].
  set (c := checksum_of (CpPhyMessage.mk f p)).
  set (g := fun b : Z => Z.lxor b (2 ^ k)).
  assert (E : flip_bit (f :: Z.of_nat (length p) :: c :: p) (3 + i) k
              = f :: Z.of_nat (length p) :: c :: alter g i p).
  { unfold flip_bit, g. rewrite Z.shiftl_1_l. reflexivity. }
  rewrite E, setRawData_full by assumption.
  rewrite (sum_alter g p i x Hx), length_alter.
  pose proof (moved_sum_mismatch f p x (g x) (flip_changes_mod256 x k Hk))
    as Hne.
  fold c in Hne.
  replace (f + Z.of_nat (length p) + c + (sum p - x + g x) - Z.land c 255)
    with (f + Z.of_nat (length p) + sum p - x + g x + c - Z.land c 255)
    by lia.
  apply Z.eqb_neq in Hne. now rewrite Hne.
Qed.

Lemma payload_flip_detected_witness :
  exists data,
    getRawData (CpPhyMessage.mk RPI_PACK_PB_SDN [16; 2; 3]) = Return data /\
    setRawData (flip_bit data (3 + 1) 7) (CpPhyMessage.init 0)
    = (Raise (PhyErr InvalidChecksum),
       CpPhyMessage.mk RPI_PACK_PB_SDN (payload (CpPhyMessage.init 0))).
Proof.
  apply (payload_flip_detected RPI_PACK_PB_SDN [16; 2; 3] 1 7).
  - discriminate.
  - simpl. lia.
  - lia.
Defined.

(** * Further properties of the transaction layer *)

(** ** One poll *)

(** X12: What one [pollReply] does on the link: it asks for the event once and
    never writes; it answers [None] exactly when no event was detected, and
    then it reads nothing; otherwise it reads the three header bytes and as
    many further bytes as the low eight bits of header byte 1 say, also
    when decoding them raises. *)
Theorem pollReply_footprint (irq : nat -> bool) (miso : nat -> Z)
    (self : CpPhy.t) :
  let run := pollReply irq miso self in
  tx_log (snd run) = tx_log self /\
  irq_polls (snd run) = S (irq_polls self) /\
  (fst run = Return None <-> irq (irq_polls self) = false) /\
  rx_count (snd run)
  = if irq (irq_polls self)
    then (rx_count self + 3
          + Z.to_nat (Z.land (miso (S (rx_count self))) 255))%nat
    else rx_count self.
Proof.
  intros run. unfold run.
  split; [apply pollReply_tx_log|]. split; [apply pollReply_polls|].
  destruct (irq (irq_polls self)) eqn:H.
  - pose proof (pollReply_event_not_none irq miso self H) as Hn.
    split; [split; [intros E; now destruct Hn|discriminate]|].
    rewrite pollReply_event by assumption.
    now destruct (setRawData _ _) as [[| |] ?].
  - rewrite pollReply_idle by assumption. split; [split|]; reflexivity.
Qed.

Lemma Return_inj {A} (a b : A) : Return a = Return b -> a = b.
Proof. now intros [= ?]. Qed.

Section Delivery.

Variable irq : nat -> bool.
Variable miso : nat -> Z.

(** The buffer assembled from a link that delivers an encoded frame with
    at most 255 payload elements is that encoded frame. *)
Lemma assembled_delivered (self : CpPhy.t) (f c : Z) (p : list Z) :
  (length p <= 255)%nat ->
  miso <$> seq (rx_count self) (3 + length p)
  = f :: Z.of_nat (length p) :: c :: p ->
  assembled miso self = f :: Z.of_nat (length p) :: c :: p.
Proof.
  intros Hl H. unfold assembled.
  assert (H1 : miso (S (rx_count self)) = Z.of_nat (length p)).
  { change (3 + length p)%nat with (S (S (S (length p)))) in H.
    cbn [seq fmap list_fmap] in H. now injection H. }
  rewrite H1, land_255_byte by lia. now rewrite Nat2Z.id.
Qed.

(** A poll on a link that delivers such a frame next. *)
Lemma pollReply_delivered (self : CpPhy.t) (f : Z) (p : list Z) :
  irq (irq_polls self) = true ->
  0 <= f <= 7 ->
  (length p <= 255)%nat ->
  (f = RPI_PACK_NOP -> p = []) ->
  miso <$> seq (rx_count self) (3 + length p)
  = f :: Z.of_nat (length p) :: checksum_of (CpPhyMessage.mk f p) :: p ->
  pollReply irq miso self
  = (Return (Some (CpPhyMessage.mk f p)),
     CpPhy.mk (S (irq_polls self)) (rx_count self + (3 + length p))
       (tx_log self)).
Proof.
  intros Hirq Hf Hl Hnop Hrx.
  pose proof (assembled_delivered self _ _ _ Hl Hrx) as Ha.
  rewrite pollReply_event by assumption. rewrite Ha.
  assert (Hd : setRawData
                 (f :: Z.of_nat (length p)
                  :: checksum_of (CpPhyMessage.mk f p) :: p)
                 (CpPhyMessage.init 0)
               = (Return tt, CpPhyMessage.mk f p)).
  { destruct (Z.eq_dec f RPI_PACK_NOP) as [E|E].
    - rewrite (Hnop E), E. apply setRawData_nop.
    - destruct (decode_encoded f p (CpPhyMessage.init 0)) as (d & Hd1 & Hd2).
      { unfold RPI_PACK_NOP in E. lia. }
      rewrite getRawData_eq in Hd1. now injection Hd1 as <-. }
  rewrite Hd. f_equal. unfold after_poll. f_equal.
  assert (H1 : miso (S (rx_count self)) = Z.of_nat (length p)).
  { change (3 + length p)%nat with (S (S (S (length p)))) in Hrx.
    cbn [seq fmap list_fmap] in Hrx. now injection Hrx. }
  rewrite H1, land_255_byte by lia. rewrite Nat2Z.id. lia.
Qed.

End Delivery.

(** X13: Across the link: when the event is detected and the bytes that the
    link delivers next are the encoding of a frame with frame control in
    0..7 and at most 255 payload elements ([NOP] with the empty payload),
    [pollReply] returns that frame and has read exactly its encoding. *)
Theorem pollReply_delivers_encoded (irq : nat -> bool) (miso : nat -> Z)
    (self : CpPhy.t) (f : Z) (p : list Z) :
  irq (irq_polls self) = true ->
  0 <= f <= 7 ->
  (length p <= 255)%nat ->
  (f = RPI_PACK_NOP -> p = []) ->
  getRawData (CpPhyMessage.mk f p)
  = Return (miso <$> seq (rx_count self) (3 + length p)) ->
  pollReply irq miso self
  = (Return (Some (CpPhyMessage.mk f p)),
     CpPhy.mk (S (irq_polls self)) (rx_count self + (3 + length p))
       (tx_log self)).
Proof.
  intros Hirq Hf Hl Hnop Hrx.
  rewrite getRawData_eq in Hrx. apply Return_inj in Hrx.
  cbn [fc payload] in Hrx. symmetry in Hrx.
  now apply pollReply_delivered.
Qed.

Lemma pollReply_delivers_encoded_witness :
  pollReply (fun _ => true) (fun k => nth k [0; 0; 4; 2; 226; 16; 7] 0)
    (CpPhy.mk 0 2 [])
  = (Return (Some (CpPhyMessage.mk RPI_PACK_PB_SDR_REPLY [16; 7])),
     CpPhy.mk 1 (2 + (3 + length [16; 7])) []).
Proof.
  apply (pollReply_delivers_encoded (fun _ => true)
           (fun k => nth k [0; 0; 4; 2; 226; 16; 7] 0) (CpPhy.mk 0 2 [])
           RPI_PACK_PB_SDR_REPLY [16; 7]).
  - reflexivity.
  - unfold RPI_PACK_PB_SDR_REPLY. lia.
  - simpl. lia.
  - discriminate.
  - reflexivity.
Defined.

(** X14: A reply whose byte 0 is [NOP] is returned as a [NOP] message with the
    empty payload whatever its other header bytes are; the bytes that its
    byte 1 announces are still read from the link, and dropped. *)
Theorem pollReply_nop_drops_payload (irq : nat -> bool) (miso : nat -> Z)
    (self : CpPhy.t) :
  irq (irq_polls self) = true ->
  miso (rx_count self) = RPI_PACK_NOP ->
  pollReply irq miso self
  = (Return (Some (CpPhyMessage.mk RPI_PACK_NOP [])),
     CpPhy.mk (S (irq_polls self))
       (rx_count self + 3
        + Z.to_nat (Z.land (miso (S (rx_count self))) 255))
       (tx_log self)).
Proof.
  intros Hirq Hnop. rewrite pollReply_event by assumption.
  rewrite assembled_shape, Hnop, setRawData_nop. reflexivity.
Qed.

Lemma pollReply_nop_drops_payload_witness :
  pollReply (fun _ => true) (fun k => nth k [0; 2; 99; 16; 7; 6; 0; 249] 0)
    (CpPhy.mk 0 0 [])
  = (Return (Some (CpPhyMessage.mk RPI_PACK_NOP [])), CpPhy.mk 1 5 []).
Proof.
  apply (pollReply_nop_drops_payload (fun _ => true)
           (fun k => nth k [0; 2; 99; 16; 7; 6; 0; 249] 0) (CpPhy.mk 0 0 [])).
  - reflexivity.
  - reflexivity.
Defined.

(** X15: If [spi.readbytes] delivers bytes, every message that [pollReply]
    returns has a frame control in 0..7 and a payload of at most 255
    bytes. *)
Theorem pollReply_returns_valid_frame (irq : nat -> bool) (miso : nat -> Z)
    (self self' : CpPhy.t) (message : CpPhyMessage.t) :
  (forall k, 0 <= miso k < 256) ->
  pollReply irq miso self = (Return (Some message), self') ->
  0 <= fc message <= 7 /\
  (length (payload message) <= 255)%nat /\
  Forall (fun x => 0 <= x < 256) (payload message).
Proof.
  intros Hbyte Hrun.
  destruct (irq (irq_polls self)) eqn:Hirq;
    [|rewrite pollReply_idle in Hrun by assumption; discriminate].
  rewrite pollReply_event in Hrun by assumption.
  destruct (setRawData _ _) as [[[]| |] m'] eqn:Hd; try discriminate.
  injection Hrun as -> _.
  apply accepted_inv in Hd
    as [(rest & _ & ->)|(b0 & b2 & p & Ha & Hb & _ & ->)]; cbn [fc payload].
  - unfold RPI_PACK_NOP. split; [lia|]. split; [simpl; lia|constructor].
  - split; [lia|]. rewrite assembled_shape in Ha. injection Ha as _ H1 _ Hp.
    split.
    + pose proof (Hbyte (S (rx_count self))). lia.
    + rewrite <- Hp. apply Forall_fmap, Forall_forall. intros k _. apply Hbyte.
Qed.

Lemma pollReply_returns_valid_frame_witness :
  0 <= fc (CpPhyMessage.mk RPI_PACK_ACK []) <= 7 /\
  (length (payload (CpPhyMessage.mk RPI_PACK_ACK [])) <= 255)%nat /\
  Forall (fun x => 0 <= x < 256) (payload (CpPhyMessage.mk RPI_PACK_ACK [])).
Proof.
  apply (pollReply_returns_valid_frame (fun _ => true)
           (fun k => nth k [6; 0; 249] 0) (CpPhy.mk 0 0 []) (CpPhy.mk 1 3 [])).
  - intros k. do 3 (destruct k as [|k]; [simpl; lia|]). destruct k; simpl; lia.
  - reflexivity.
Defined.

(** X16: Replies are read in the order in which the link delivers them: when
    two encoded frames (frame controls in 1..7, at most 255 payload
    elements each) follow each other on the link and both polls detect the
    event, two [pollReply] calls return the first frame, then the second. *)
Theorem pollReply_twice_in_order (irq : nat -> bool) (miso : nat -> Z)
    (self : CpPhy.t) (f1 f2 : Z) (p1 p2 : list Z) :
  irq (irq_polls self) = true ->
  irq (S (irq_polls self)) = true ->
  1 <= f1 <= 7 -> 1 <= f2 <= 7 ->
  (length p1 <= 255)%nat -> (length p2 <= 255)%nat ->
  getRawData (CpPhyMessage.mk f1 p1)
  = Return (miso <$> seq (rx_count self) (3 + length p1)) ->
  getRawData (CpPhyMessage.mk f2 p2)
  = Return (miso <$> seq (rx_count self + (3 + length p1)) (3 + length p2)) ->
  (first ← pollReply irq miso; second ← pollReply irq miso;
   mret (first, second)) self
  = (Return (Some (CpPhyMessage.mk f1 p1), Some (CpPhyMessage.mk f2 p2)),
     CpPhy.mk (S (S (irq_polls self)))
       (rx_count self + (3 + length p1) + (3 + length p2)) (tx_log self)).
Proof.
  intros Hi1 Hi2 Hf1 Hf2 Hl1 Hl2 H1 H2.
  unfold mbind, M_bind, bind, mret, M_ret, ret.
  rewrite getRawData_eq in H1, H2.
  apply Return_inj in H1. apply Return_inj in H2.
  cbn [fc payload] in H1, H2. symmetry in H1. symmetry in H2.
  rewrite (pollReply_delivered irq miso self f1 p1)
    by (try assumption; try lia; unfold RPI_PACK_NOP; lia).
  rewrite (pollReply_delivered irq miso _ f2 p2)
    by (try assumption; try lia; unfold RPI_PACK_NOP; lia).
  reflexivity.
Qed.

Lemma pollReply_twice_in_order_witness :
  let miso := fun k : nat => nth k [6; 0; 249; 4; 2; 226; 16; 7] 0 in
  (first ← pollReply (fun _ => true) miso;
   second ← pollReply (fun _ => true) miso;
   mret (first, second)) (CpPhy.mk 0 0 [])
  = (Return (Some (CpPhyMessage.mk RPI_PACK_ACK []),
             Some (CpPhyMessage.mk RPI_PACK_PB_SDR_REPLY [16; 7])),
     CpPhy.mk 2 (0 + (3 + length ([] : list Z)) + (3 + length [16; 7])) []).
Proof.
  intros miso.
  apply (pollReply_twice_in_order (fun _ => true) miso (CpPhy.mk 0 0 [])
           RPI_PACK_ACK RPI_PACK_PB_SDR_REPLY [] [16; 7]).
  - reflexivity.
  - reflexivity.
  - unfold RPI_PACK_ACK. lia.
  - unfold RPI_PACK_PB_SDR_REPLY. lia.
  - simpl. lia.
  - simpl. lia.
  - reflexivity.
  - reflexivity.
Defined.

(** ** Sending *)

Section Sending.

Variable irq : nat -> bool.
Variable miso : nat -> Z.

(** More iterations do not change how a finished loop ended. *)
Lemma spin_more_fuel (fuel fuel' : nat) (self self' : CpPhy.t)
    (r : outcome (option CpPhyMessage.t)) :
  spin irq miso fuel self = (r, self') ->
  r <> Spinning ->
  (fuel <= fuel')%nat ->
  spin irq miso fuel' self = (r, self').
Proof.
  revert fuel' self. induction fuel as [|fuel IH]; intros fuel' self Hrun Hr Hle.
  - rewrite spin_out_of_fuel in Hrun. injection Hrun as <- _. now destruct Hr.
  - destruct fuel' as [|fuel']; [lia|].
    cbn [spin] in *. unfold mbind, M_bind, bind in *.
    destruct (pollReply irq miso self) as [[[m|]| |] s1]; try assumption.
    apply IH; [assumption..|lia].
Qed.

(** The loop itself never ends with [None]. *)
Lemma spin_not_none (fuel : nat) (self : CpPhy.t) :
  fst (spin irq miso fuel self) <> Return None.
Proof.
  revert self. induction fuel as [|fuel IH]; intros self; [discriminate|].
  cbn [spin]. unfold mbind, M_bind, bind.
  destruct (pollReply irq miso self) as [[[m|]| |] s1]; try discriminate.
  apply IH.
Qed.

End Sending.

(** The iteration budget of the model has no influence on a call that
    ends: if [__sendMessage] returns or raises within some number of loop
    iterations, it ends in the same way, with the link in the same state,
    for every larger number. *)
Theorem sendMessage_fuel_independent (irq : nat -> bool) (miso : nat -> Z)
    (fuel fuel' : nat) (message : CpPhyMessage.t) (sync : bool)
    (self self' : CpPhy.t) (r : outcome (option CpPhyMessage.t)) :
  __sendMessage irq miso fuel message sync self = (r, self') ->
  r <> Spinning ->
  (fuel <= fuel')%nat ->
  __sendMessage irq miso fuel' message sync self = (r, self').
Proof.
  destruct sync.
  - destruct (sendMessage_sync irq miso fuel message self) as (d & Hd & ->).
    destruct (sendMessage_sync irq miso fuel' message self) as (d' & Hd' & ->).
    rewrite Hd in Hd'. injection Hd' as <-. apply spin_more_fuel.
  - destruct (sendMessage_async irq miso fuel message self) as (d & Hd & ->).
    destruct (sendMessage_async irq miso fuel' message self) as (d' & Hd' & ->).
    rewrite Hd in Hd'. injection Hd' as <-. now intros [= <- <-].
Qed.

Lemma sendMessage_fuel_independent_witness :
  __sendMessage (fun k => (2 <=? k)%nat) (fun k => nth k [6; 0; 249] 0)
    7 (CpPhyMessage.init RPI_PACK_RESET) true (CpPhy.mk 0 0 [])
  = (Return (Some (CpPhyMessage.mk RPI_PACK_ACK [])),
     CpPhy.mk 3 3 [[1; 0; 254]]).
Proof.
  apply (sendMessage_fuel_independent (fun k => (2 <=? k)%nat)
           (fun k => nth k [6; 0; 249] 0) 3 7).
  - reflexivity.
  - discriminate.
  - lia.
Defined.

(** X17: Every [__sendMessage] call makes exactly one [spi.writebytes] call,
    with the encoding of the message, whether it is synchronous or not and
    however the wait for the reply ends. *)
Theorem sendMessage_writes_once (irq : nat -> bool) (miso : nat -> Z)
    (fuel : nat) (message : CpPhyMessage.t) (sync : bool) (self : CpPhy.t) :
  exists data,
    getRawData message = Return data /\
    tx_log (snd (__sendMessage irq miso fuel message sync self))
    = tx_log self ++ [data].
Proof.
  destruct sync.
  - destruct (sendMessage_sync irq miso fuel message self) as (d & Hd & ->).
    exists d. split; [assumption|]. now rewrite spin_tx_log.
  - destruct (sendMessage_async irq miso fuel message self) as (d & Hd & ->).
    exists d. split; [assumption|]. reflexivity.
Qed.

(** X18: [profibusSend_SDN] and [profibusSend_SDR] with [sync=False] (the
    default) write the encoded frame and return [None] at once: the event
    is not polled and nothing is read, so a reply stays on the link until
    the caller polls for it. *)
Theorem profibusSend_async (irq : nat -> bool) (miso : nat -> Z)
    (fuel : nat) (telegram : list Z) (self : CpPhy.t) :
  (exists c,
     profibusSend_SDN irq miso fuel telegram false self
     = (Return None,
        after_write (RPI_PACK_PB_SDN :: Z.of_nat (length telegram) :: c
                     :: telegram) self) /\
     calculateChecksum (RPI_PACK_PB_SDN :: Z.of_nat (length telegram) :: c
                        :: telegram) = Return c) /\
  (exists c,
     profibusSend_SDR irq miso fuel telegram false self
     = (Return None,
        after_write (RPI_PACK_PB_SDR :: Z.of_nat (length telegram) :: c
                     :: telegram) self) /\
     calculateChecksum (RPI_PACK_PB_SDR :: Z.of_nat (length telegram) :: c
                        :: telegram) = Return c).
Proof.
  split.
  - exists (checksum_of (CpPhyMessage.mk RPI_PACK_PB_SDN telegram)). split.
    + unfold profibusSend_SDN, __sendMessage. now rewrite getRawData_eq.
    + rewrite calculateChecksum_header. f_equal.
      apply (encoded_checksum_ok (CpPhyMessage.mk RPI_PACK_PB_SDN telegram)).
  - exists (checksum_of (CpPhyMessage.mk RPI_PACK_PB_SDR telegram)). split.
    + unfold profibusSend_SDR, __sendMessage. now rewrite getRawData_eq.
    + rewrite calculateChecksum_header. f_equal.
      apply (encoded_checksum_ok (CpPhyMessage.mk RPI_PACK_PB_SDR telegram)).
Qed.

(** X19: A synchronous [__sendMessage] does not return while no event is
    detected: if every call of [GPIO.event_detected] answers false, then
    for every number of iterations the loop is still polling, has polled
    that many times and has read nothing.  There is no timeout. *)
Theorem sendMessage_sync_waits_forever (irq : nat -> bool) (miso : nat -> Z)
    (fuel : nat) (message : CpPhyMessage.t) (self : CpPhy.t) :
  (forall i, irq (irq_polls self + i)%nat = false) ->
  exists data,
    getRawData message = Return data /\
    __sendMessage irq miso fuel message true self
    = (Spinning, after_idle_polls fuel (after_write data self)).
Proof.
  intros Hidle.
  destruct (sendMessage_sync irq miso fuel message self) as (d & Hd & ->).
  exists d. split; [assumption|].
  replace fuel with (fuel + 0)%nat at 1 by lia.
  rewrite spin_idle; [reflexivity|]. intros i _. apply Hidle.
Qed.

Lemma sendMessage_sync_waits_forever_witness :
  exists data,
    getRawData (CpPhyMessage.init RPI_PACK_RESET) = Return data /\
    __sendMessage (fun _ => false) (fun _ => 0) 9
      (CpPhyMessage.init RPI_PACK_RESET) true (CpPhy.mk 0 0 [])
    = (Spinning, after_idle_polls 9 (after_write data (CpPhy.mk 0 0 []))).
Proof.
  apply (sendMessage_sync_waits_forever (fun _ => false) (fun _ => 0) 9
           (CpPhyMessage.init RPI_PACK_RESET) (CpPhy.mk 0 0 [])).
  reflexivity.
Defined.

(** ** Setting the baud rate *)

(** X20: [baud2id] is one-to-one: a baud rate of the table has an identifier
    in 0..9, and two baud rates with the same identifier are equal. *)
Theorem baud2id_injective (baudrate baudrate' baudID : Z) :
  baud2id !! baudrate = Some baudID ->
  baud2id !! baudrate' = Some baudID ->
  baudrate = baudrate' /\ 0 <= baudID <= 9.
Proof.
  unfold baud2id, PB_PHY_BAUD_9600, PB_PHY_BAUD_19200, PB_PHY_BAUD_45450,
    PB_PHY_BAUD_93750, PB_PHY_BAUD_187500, PB_PHY_BAUD_500000,
    PB_PHY_BAUD_1500000, PB_PHY_BAUD_3000000, PB_PHY_BAUD_6000000,
    PB_PHY_BAUD_12000000.
  intros H H'.
  apply elem_of_list_to_map_2 in H. apply elem_of_list_to_map_2 in H'.
  rewrite !elem_of_cons, elem_of_nil in H.
  rewrite !elem_of_cons, elem_of_nil in H'.
  repeat match goal with
         | Hor : _ \/ _ |- _ => destruct Hor
         | Hf : False |- _ => destruct Hf
         end;
    simplify_eq; (split; [reflexivity|lia]).
Qed.

Lemma baud2id_injective_witness : 500000 = 500000 /\ 0 <= 5 <= 9.
Proof.
  apply (baud2id_injective 500000 500000 5); reflexivity.
Defined.

(** X21: For each of the ten baud rates of the table, [profibusSetPhyConfig]
    makes one [spi.writebytes] call, with the four bytes
    [[2; 1; 252 - id; id]], where [id] in 0..9 is the identifier of the
    rate; this holds however the wait for the reply ends. *)
Theorem profibusSetPhyConfig_frame (irq : nat -> bool) (miso : nat -> Z)
    (fuel : nat) (baudrate : Z) (self : CpPhy.t) :
  baudrate ∈ [9600; 19200; 45450; 93750; 187500; 500000; 1500000; 3000000;
              6000000; 12000000] ->
  exists baudID,
    baud2id !! baudrate = Some baudID /\
    0 <= baudID <= 9 /\
    getRawData (CpPhyMessage.mk RPI_PACK_SETCFG [baudID])
    = Return [2; 1; 252 - baudID; baudID] /\
    tx_log (snd (profibusSetPhyConfig irq miso fuel baudrate self))
    = tx_log self ++ [[2; 1; 252 - baudID; baudID]].
Proof.
  intros H. destruct (baud2id_supported baudrate H) as (baudID & Hid & Hr).
  exists baudID. split; [assumption|]. split; [assumption|].
  assert (Hd : getRawData (CpPhyMessage.mk RPI_PACK_SETCFG [baudID])
               = Return [2; 1; 252 - baudID; baudID]).
  { rewrite getRawData_eq. unfold checksum_of. cbn [fc payload length].
    rewrite sum_cons. change (sum []) with 0. unfold RPI_PACK_SETCFG.
    rewrite Z.mod_small by lia. do 4 f_equal. lia. }
  split; [assumption|].
  unfold profibusSetPhyConfig. rewrite Hid.
  unfold mbind, M_bind, bind at 1. cbn [ret]. unfold bind at 1.
  destruct (sendMessage_sync irq miso fuel
              (CpPhyMessage.mk RPI_PACK_SETCFG [baudID]) self)
    as (data & Hdata & ->).
  rewrite Hd in Hdata. injection Hdata as <-.
  pose proof (spin_tx_log irq miso fuel
                (after_write [2; 1; 252 - baudID; baudID] self)) as Htx.
  destruct (spin irq miso fuel _) as [[r| |] self']; exact Htx.
Qed.

Lemma profibusSetPhyConfig_frame_witness :
  exists baudID,
    baud2id !! 12000000 = Some baudID /\
    0 <= baudID <= 9 /\
    getRawData (CpPhyMessage.mk RPI_PACK_SETCFG [baudID])
    = Return [2; 1; 252 - baudID; baudID] /\
    tx_log (snd (profibusSetPhyConfig (fun _ => true)
                   (fun k => nth k [6; 0; 249] 0) 1 12000000
                   (CpPhy.mk 0 0 [])))
    = tx_log (CpPhy.mk 0 0 []) ++ [[2; 1; 252 - baudID; baudID]].
Proof.
  apply (profibusSetPhyConfig_frame (fun _ => true)
           (fun k => nth k [6; 0; 249] 0) 1 12000000 (CpPhy.mk 0 0 [])).
  rewrite !elem_of_cons. do 9 right. left. reflexivity.
Defined.

(** X22: [profibusSetPhyConfig] does not look at the reply: for a baud rate of
    the table, when the [N]-th poll is the first to detect the event and
    the reply decodes, the call returns [None] whatever frame the reply is
    (an [ACK], a [NACK] or any other); when decoding the reply raises, the
    call raises the same exception. *)
Theorem profibusSetPhyConfig_ignores_reply (irq : nat -> bool)
    (miso : nat -> Z) (N fuel : nat) (baudrate baudID : Z) (self : CpPhy.t) :
  baud2id !! baudrate = Some baudID ->
  (1 <= N)%nat ->
  (forall i, (i < N - 1)%nat -> irq (irq_polls self + i)%nat = false) ->
  irq (irq_polls self + (N - 1))%nat = true ->
  (N <= fuel)%nat ->
  exists data,
    getRawData (CpPhyMessage.mk RPI_PACK_SETCFG [baudID]) = Return data /\
    let polling := after_idle_polls (N - 1) (after_write data self) in
    profibusSetPhyConfig irq miso fuel baudrate self
    = match setRawData (assembled miso polling) (CpPhyMessage.init 0) with
      | (Return _, _) => (Return tt, after_poll miso polling)
      | (Raise e, _) => (Raise e, after_poll miso polling)
      | (Spinning, _) => (Spinning, after_poll miso polling)
      end.
Proof.
  intros Hid HN Hidle Hevent Hfuel.
  destruct (sendMessage_sync irq miso fuel
              (CpPhyMessage.mk RPI_PACK_SETCFG [baudID]) self)
    as (data & Hdata & Hrun).
  exists data. split; [assumption|]. intros polling.
  unfold profibusSetPhyConfig. rewrite Hid.
  unfold mbind, M_bind, bind at 1. cbn [ret]. unfold bind at 1.
  rewrite Hrun.
  replace fuel with ((N - 1) + S (fuel - N))%nat by lia.
  rewrite spin_idle by exact Hidle. fold polling.
  rewrite spin_event by exact Hevent.
  rewrite pollReply_event by exact Hevent.
  now destruct (setRawData _ _) as [[| |] ?].
Qed.

Lemma profibusSetPhyConfig_ignores_reply_witness :
  let miso := fun k : nat => nth k [7; 0; 248] 0 in
  exists data,
    getRawData (CpPhyMessage.mk RPI_PACK_SETCFG [4]) = Return data /\
    let polling := after_idle_polls (2 - 1) (after_write data (CpPhy.mk 0 0 [])) in
    profibusSetPhyConfig (fun k => (1 <=? k)%nat) miso 2 187500
      (CpPhy.mk 0 0 [])
    = match setRawData (assembled miso polling) (CpPhyMessage.init 0) with
      | (Return _, _) => (Return tt, after_poll miso polling)
      | (Raise e, _) => (Raise e, after_poll miso polling)
      | (Spinning, _) => (Spinning, after_poll miso polling)
      end.
Proof.
  intros miso.
  apply (profibusSetPhyConfig_ignores_reply (fun k => (1 <=? k)%nat) miso
           2 2 187500 4 (CpPhy.mk 0 0 [])).
  - reflexivity.
  - lia.
  - intros i Hi. destruct i; [reflexivity|simpl in Hi; lia].
  - reflexivity.
  - lia.
Defined.

Example set_config_nack_is_ignored :
  profibusSetPhyConfig (fun k => (1 <=? k)%nat)
    (fun k => nth k [7; 0; 248] 0) 2 187500 (CpPhy.mk 0 0 [])
  = (Return tt, CpPhy.mk 2 3 [[2; 1; 248; 4]]).
Proof. reflexivity. Qed.

(** * Bringing the link up and down *)

Ltac board_eval_in H :=
  lazy beta iota zeta delta
    [Board.new Board.__init__ Board.cleanup Board.self_spi_close
     Board.try_except Board.call Board.on_link Board.set_device
     Board.set_chipselect Board.set_spi Board.raiseB Board.retB
     Board.blank mbind Board.B_bind Board.bindB
     Board.calls Board.spi Board.link Board.device Board.chipselect
     length app] in H.

(** All the ways a constructor call can go: which hardware call raises
    first, what the calls of the handlers do, and how [sendReset] ends. *)
Ltac init_cases faults Hrun :=
  board_eval_in Hrun;
  repeat match type of Hrun with
         | context [faults ?n] =>
             let F := fresh "F" in
             destruct (faults n) as [[|]|] eqn:F; board_eval_in Hrun
         | context [sendReset ?i ?m ?f ?l] =>
             let R := fresh "Hreset" in
             let l' := fresh "l'" in
             destruct (sendReset i m f l) as [[?|?|] l'] eqn:R;
             board_eval_in Hrun
         end;
  injection Hrun as <- <-.

Ltac not_among :=
  rewrite ?not_elem_of_cons;
  repeat split; try discriminate; try apply not_elem_of_nil.

Ltac absurd_member Hin :=
  exfalso;
  match type of Hin with
  | ?x ∈ ?l =>
      let Hn := fresh in
      assert (Hn : x ∉ l) by (solve [not_among]); exact (Hn Hin)
  end.

Section Reset.

Variable irq : nat -> bool.
Variable miso : nat -> Z.

(** [sendReset] writes the encoded [RESET] frame, once. *)
Lemma sendReset_tx_log (fuel : nat) (l l' : CpPhy.t)
    (r : outcome (option CpPhyMessage.t)) :
  sendReset irq miso fuel l = (r, l') ->
  tx_log l' = tx_log l ++ [[1; 0; 254]].
Proof.
  unfold sendReset. intros H.
  destruct (sendMessage_sync irq miso fuel (CpPhyMessage.init RPI_PACK_RESET) l)
    as (data & Hdata & Hrun).
  change (getRawData (CpPhyMessage.init RPI_PACK_RESET))
    with (Return (A := list Z) [1; 0; 254]) in Hdata.
  injection Hdata as <-. rewrite Hrun in H.
  pose proof (spin_tx_log irq miso fuel (after_write [1; 0; 254] l)) as Htx.
  rewrite H in Htx. exact Htx.
Qed.

End Reset.

(** X23: The constructor calls [GPIO.cleanup()] exactly when it raises, and
    then as its last hardware call, whichever call failed; a constructor
    that returns (or is still waiting for the reply to the reset) has not
    called it. *)
Theorem init_cleans_gpio_iff_raises (faults : nat -> option Board.hw_exn)
    (irq : nat -> bool) (miso : nat -> Z) (fuel : nat) (device chipselect : Z) :
  let run := Board.new faults irq miso fuel device chipselect in
  match fst run with
  | Board.Failed _ => last (Board.calls (snd run)) = Some Board.GPIO_cleanup
  | _ => Board.GPIO_cleanup ∉ Board.calls (snd run)
  end.
Proof.
  intros run. destruct run as [r s] eqn:Hrun. unfold run in Hrun. clear run.
  init_cases faults Hrun; cbn [fst snd Board.calls]; try reflexivity;
    not_among.
Qed.

(** X24: The controller is taken out of hardware reset only after the SPI
    device is open and fully configured: if [GPIO.output(GPIO_RESET,
    GPIO.HIGH)] is among the calls of the constructor, the thirteen calls
    of the GPIO and SPI set-up precede it, in order. *)
Theorem init_reset_released_after_spi_setup
    (faults : nat -> option Board.hw_exn) (irq : nat -> bool)
    (miso : nat -> Z) (fuel : nat) (device chipselect : Z) :
  let run := Board.new faults irq miso fuel device chipselect in
  Board.GPIO_output Board.GPIO_RESET Board.HIGH ∈ Board.calls (snd run) ->
  exists rest,
    Board.calls (snd run)
    = take 13 (Board.bring_up device chipselect)
      ++ Board.GPIO_output Board.GPIO_RESET Board.HIGH :: rest.
Proof.
  intros run. destruct run as [r s] eqn:Hrun. unfold run in Hrun. clear run.
  init_cases faults Hrun; cbn [fst snd Board.calls]; intros Hin;
    try absurd_member Hin;
    cbn [take Board.bring_up app]; eexists; reflexivity.
Qed.

Lemma init_reset_released_after_spi_setup_witness :
  let run :=
    Board.new (fun k => if (k =? 14)%nat then Some Board.OtherError else None)
      (fun _ => true) (fun k => nth k [6; 0; 249] 0) 1 0 0 in
  exists rest,
    Board.calls (snd run)
    = take 13 (Board.bring_up 0 0)
      ++ Board.GPIO_output Board.GPIO_RESET Board.HIGH :: rest.
Proof.
  apply (init_reset_released_after_spi_setup
           (fun k => if (k =? 14)%nat then Some Board.OtherError else None)
           (fun _ => true) (fun k => nth k [6; 0; 249] 0) 1 0 0).
  apply (list_elem_of_lookup_2 _ 13%nat). reflexivity.
Defined.



(** X26: When the software reset fails (decoding the reply raises), the
    constructor has made every call of a successful bring-up, has written
    the [RESET] frame, and then only calls [GPIO.cleanup()]: the SPI device
    is not closed and [self.spi] still holds it. *)
Theorem init_reset_failure_leaves_spi_open
    (faults : nat -> option Board.hw_exn) (irq : nat -> bool)
    (miso : nat -> Z) (fuel : nat) (device chipselect : Z) (e : exn) :
  let run := Board.new faults irq miso fuel device chipselect in
  fst run = Board.Failed (Board.Link e) ->
  Board.calls (snd run)
  = Board.bring_up device chipselect ++ [Board.GPIO_cleanup] /\
  (Board.spi_close ∉ Board.calls (snd run)) /\
  Board.spi (snd run) = Board.SpiObj /\
  tx_log (Board.link (snd run)) = [[1; 0; 254]].
Proof.
  intros run. destruct run as [r s] eqn:Hrun. unfold run in Hrun. clear run.
  init_cases faults Hrun;
    cbn [fst snd Board.calls Board.spi Board.link]; intros Hr;
    try discriminate Hr.
  split; [reflexivity|]. split; [solve [not_among]|]. split; [reflexivity|].
  apply (sendReset_tx_log _ _ _ _ _ _ Hreset).
Qed.

Lemma init_reset_failure_leaves_spi_open_witness :
  let run :=
    Board.new (fun _ => None) (fun _ => true) (fun k => nth k [6; 0; 0] 0)
      1 0 0 in
  Board.calls (snd run) = Board.bring_up 0 0 ++ [Board.GPIO_cleanup] /\
  (Board.spi_close ∉ Board.calls (snd run)) /\
  Board.spi (snd run) = Board.SpiObj /\
  tx_log (Board.link (snd run)) = [[1; 0; 254]].
Proof.
  apply (init_reset_failure_leaves_spi_open (fun _ => None) (fun _ => true)
           (fun k => nth k [6; 0; 0] 0) 1 0 0 (PhyErr InvalidChecksum)).
  reflexivity.
Defined.

(** X27: A constructor that returns has made exactly the fifteen calls of the
    bring-up, none of which raised, in this order: GPIO set-up with the
    reset line low, 50 ms pause, SPI open and the five settings, reset
    line high, 200 ms pause; it has then written the [RESET] frame and
    got a reply that decodes.  The object holds the device, the
    chip-select and the open SPI device. *)
Theorem init_success (faults : nat -> option Board.hw_exn)
    (irq : nat -> bool) (miso : nat -> Z) (fuel : nat) (device chipselect : Z) :
  let run := Board.new faults irq miso fuel device chipselect in
  fst run = Board.Done tt ->
  Board.calls (snd run) = Board.bring_up device chipselect /\
  (forall k, (k < 15)%nat -> faults k = None) /\
  Board.device (snd run) = device /\
  Board.chipselect (snd run) = chipselect /\
  Board.spi (snd run) = Board.SpiObj /\
  tx_log (Board.link (snd run)) = [[1; 0; 254]] /\
  exists reply,
    sendReset irq miso fuel (CpPhy.mk 0 0 [])
    = (Return (Some reply), Board.link (snd run)).
Proof.
  intros run. destruct run as [r s] eqn:Hrun. unfold run in Hrun. clear run.
  init_cases faults Hrun;
    cbn [fst snd Board.calls Board.spi Board.link Board.device
         Board.chipselect]; intros Hr; try discriminate Hr.
  split; [reflexivity|]. split.
  { intros k Hk. do 15 (destruct k as [|k]; [assumption|]). lia. }
  do 3 (split; [reflexivity|]).
  split; [apply (sendReset_tx_log _ _ _ _ _ _ Hreset)|].
  match type of Hreset with
  | _ = (Return ?a, _) => destruct a as [reply|]
  end.
  - now exists reply.
  - exfalso. unfold sendReset in Hreset.
    destruct (sendMessage_sync irq miso fuel
                (CpPhyMessage.init RPI_PACK_RESET) (CpPhy.mk 0 0 []))
      as (data & _ & Hs).
    rewrite Hs in Hreset.
    apply (spin_not_none irq miso fuel (after_write data (CpPhy.mk 0 0 []))).
    now rewrite Hreset.
Qed.

Lemma init_success_witness :
  let run :=
    Board.new (fun _ => None) (fun k => (2 <=? k)%nat)
      (fun k => nth k [6; 0; 249] 0) 3 0 1 in
  Board.calls (snd run) = Board.bring_up 0 1 /\
  (forall k, (k < 15)%nat -> (fun _ : nat => @None Board.hw_exn) k = None) /\
  Board.device (snd run) = 0 /\
  Board.chipselect (snd run) = 1 /\
  Board.spi (snd run) = Board.SpiObj /\
  tx_log (Board.link (snd run)) = [[1; 0; 254]] /\
  exists reply,
    sendReset (fun k => (2 <=? k)%nat) (fun k => nth k [6; 0; 249] 0) 3
      (CpPhy.mk 0 0 [])
    = (Return (Some reply), Board.link (snd run)).
Proof.
  apply (init_success (fun _ => None) (fun k => (2 <=? k)%nat)
           (fun k => nth k [6; 0; 249] 0) 3 0 1).
  reflexivity.
Defined.

(** X28: The constructor has no timeout: when no hardware call raises and the
    event is never detected, it is still waiting for the reply to the
    reset after any number of polls, with the bring-up done and the
    controller out of reset. *)
Theorem init_waits_forever (faults : nat -> option Board.hw_exn)
    (irq : nat -> bool) (miso : nat -> Z) (fuel : nat) (device chipselect : Z) :
  (forall k, faults k = None) ->
  (forall i, irq i = false) ->
  Board.new faults irq miso fuel device chipselect
  = (Board.Waiting,
     Board.mk device chipselect Board.SpiObj
       (Board.bring_up device chipselect)
       (CpPhy.mk fuel 0 [[1; 0; 254]])).
Proof.
  intros Hf Hirq.
  destruct (Board.new faults irq miso fuel device chipselect) as [r s] eqn:Hrun.
  board_eval_in Hrun. rewrite !Hf in Hrun. board_eval_in Hrun.
  unfold sendReset in Hrun.
  destruct (sendMessage_sync irq miso fuel
              (CpPhyMessage.init RPI_PACK_RESET) (CpPhy.mk 0 0 []))
    as (data & Hdata & Hs).
  change (getRawData (CpPhyMessage.init RPI_PACK_RESET))
    with (Return (A := list Z) [1; 0; 254]) in Hdata.
  injection Hdata as <-. rewrite Hs in Hrun.
  replace fuel with (fuel + 0)%nat in Hrun at 1 by lia.
  rewrite spin_idle in Hrun by (intros i _; apply Hirq).
  rewrite spin_out_of_fuel in Hrun. board_eval_in Hrun.
  injection Hrun as <- <-. reflexivity.
Qed.

Lemma init_waits_forever_witness :
  Board.new (fun _ => None) (fun _ => false) (fun _ => 0) 9 0 0
  = (Board.Waiting,
     Board.mk 0 0 Board.SpiObj (Board.bring_up 0 0)
       (CpPhy.mk 9 0 [[1; 0; 254]])).
Proof.
  apply (init_waits_forever (fun _ => None) (fun _ => false) (fun _ => 0)
           9 0 0); reflexivity.
Defined.

(** ** [cleanup] *)

Section Cleanup.

Variable faults : nat -> option Board.hw_exn.

Lemma cleanup_run (d c : Z) (cs : list Board.hw_call) (l : CpPhy.t) :
  Board.cleanup faults (Board.mk d c Board.SpiObj cs l)
  = match faults (length cs) with
    | Some x =>
        (Board.Failed (Board.Hw x),
         Board.mk d c Board.SpiObj (cs ++ [Board.spi_close]) l)
    | None =>
        match faults (S (length cs)) with
        | Some x =>
            (Board.Failed (Board.Hw x),
             Board.mk d c Board.SpiNone
               (cs ++ [Board.spi_close; Board.GPIO_cleanup]) l)
        | None =>
            (Board.Done tt,
             Board.mk d c Board.SpiNone
               (cs ++ [Board.spi_close; Board.GPIO_cleanup]) l)
        end
    end.
Proof.
  unfold Board.cleanup, Board.self_spi_close, Board.call, Board.set_spi,
    mbind, Board.B_bind, Board.bindB.
  cbn [Board.spi Board.calls Board.device Board.chipselect Board.link].
  destruct (faults (length cs)); [reflexivity|].
  cbn [Board.spi Board.calls Board.device Board.chipselect Board.link].
  rewrite length_app, Nat.add_1_r, <- app_assoc.
  destruct (faults (S (length cs))); reflexivity.
Qed.

End Cleanup.

(** X29: [cleanup] on an object that holds its SPI device: when neither call
    raises, it closes the SPI device, sets [self.spi] to [None] and calls
    [GPIO.cleanup()], in this order; a second [cleanup] then raises an
    [AttributeError] at [self.spi.close()] and makes no hardware call. *)
Theorem cleanup_twice (faults : nat -> option Board.hw_exn) (self : Board.t) :
  Board.spi self = Board.SpiObj ->
  faults (length (Board.calls self)) = None ->
  faults (S (length (Board.calls self))) = None ->
  let closed :=
    Board.mk (Board.device self) (Board.chipselect self) Board.SpiNone
      (Board.calls self ++ [Board.spi_close; Board.GPIO_cleanup])
      (Board.link self) in
  Board.cleanup faults self = (Board.Done tt, closed) /\
  Board.cleanup faults closed = (Board.Failed Board.AttributeError, closed).
Proof.
  destruct self as [d c s cs l]. cbn [Board.spi Board.calls Board.device
    Board.chipselect Board.link]. intros -> H0 H1. split.
  - now rewrite cleanup_run, H0, H1.
  - reflexivity.
Qed.

Lemma cleanup_twice_witness :
  let self :=
    Board.mk 0 0 Board.SpiObj (Board.bring_up 0 0) (CpPhy.mk 1 3 [[1; 0; 254]]) in
  let closed :=
    Board.mk 0 0 Board.SpiNone
      (Board.bring_up 0 0 ++ [Board.spi_close; Board.GPIO_cleanup])
      (CpPhy.mk 1 3 [[1; 0; 254]]) in
  Board.cleanup (fun _ => None) self = (Board.Done tt, closed) /\
  Board.cleanup (fun _ => None) closed
  = (Board.Failed Board.AttributeError, closed).
Proof.
  intros self closed.
  apply (cleanup_twice (fun _ => None) self); reflexivity.
Defined.

(** X30: When [spi.close()] raises in [cleanup], the exception leaves the
    method at once: [self.spi] keeps the device and [GPIO.cleanup()] is
    not called. *)
Theorem cleanup_close_failure_skips_gpio (faults : nat -> option Board.hw_exn)
    (self : Board.t) (x : Board.hw_exn) :
  Board.spi self = Board.SpiObj ->
  faults (length (Board.calls self)) = Some x ->
  Board.cleanup faults self
  = (Board.Failed (Board.Hw x),
     Board.mk (Board.device self) (Board.chipselect self) Board.SpiObj
       (Board.calls self ++ [Board.spi_close]) (Board.link self)).
Proof.
  destruct self as [d c s cs l]. cbn [Board.spi Board.calls Board.device
    Board.chipselect Board.link]. intros -> H0.
  now rewrite cleanup_run, H0.
Qed.

Lemma cleanup_close_failure_skips_gpio_witness :
  Board.cleanup (fun _ => Some Board.IOError)
    (Board.mk 0 0 Board.SpiObj (Board.bring_up 0 0) (CpPhy.mk 1 3 [[1; 0; 254]]))
  = (Board.Failed (Board.Hw Board.IOError),
     Board.mk 0 0 Board.SpiObj (Board.bring_up 0 0 ++ [Board.spi_close])
       (CpPhy.mk 1 3 [[1; 0; 254]])).
Proof.
  apply (cleanup_close_failure_skips_gpio (fun _ => Some Board.IOError)
           (Board.mk 0 0 Board.SpiObj (Board.bring_up 0 0)
              (CpPhy.mk 1 3 [[1; 0; 254]])) Board.IOError); reflexivity.
Defined.
